(** * PDFStract orchestration layer: registry, execution engine, batch engine

    A shallow embedding of the orchestration code of the repository

    - [src/services/ocrfactory.py]                 (class [OCRFactory])
    - [src/pdfstract/api.py]                       (class [PDFStract])
    - [src/services/converters/mineru_converter.py] (class [MinerUConverter])

    Python objects are records, methods are functions of [self], exceptions
    are values of [PyExc] carried by [Raise], and calls that leave the
    orchestration layer (file system, database, backends, logger, chunker
    factory) are read from a [World] and recorded in a trace of [Event]s. *)

From Stdlib Require Import String Ascii List ZArith Lia Permutation DecimalString.
From stdpp Require Import gmap strings list fin_maps.
Import ListNotations.
Local Open Scope string_scope.
Local Open Scope list_scope.
Local Open Scope stdpp_scope.

(* ===================================================================== *)
(** ** Python values *)
(* ===================================================================== *)

(** A Python [str] is a [string]; each [ascii] stands for the code point of
    the same number (code points below 256). *)

(** The JSON-like values the orchestration layer builds and passes around:
    [Union[str, Dict]] contents, listing records, [{"error": ...}] records.
    A [dict] literal is kept in insertion order, which [repr] shows. *)
#[warnings="-register-all"] Inductive PyVal : Type :=
| PyNone
| PyBool (b : bool)
| PyInt (z : Z)
| PyStr (s : string)
| PyList (l : list PyVal)
| PyDict (d : list (string * PyVal)).

(** [", ".join(parts)] *)
Fixpoint join (sep : string) (parts : list string) : string :=
  match parts with
  | [] => ""
  | [p] => p
  | p :: rest => p +:+ sep +:+ join sep rest
  end.

Definition hex_digit (n : N) : ascii :=
  if (n <? 10)%N then ascii_of_N (48 + n) else ascii_of_N (87 + n).

(** [\xNN], two lower-case hexadecimal digits *)
Definition hex_escape (c : ascii) : string :=
  let n := N_of_ascii c in
  String "092" (String "x" (String (hex_digit (n / 16)) (String (hex_digit (n mod 16)) ""))).

(** code points below 256 that [str.isprintable] rejects *)
Definition nonprintable (c : ascii) : bool :=
  let n := N_of_ascii c in
  (n <? 32)%N || ((127 <=? n)%N && (n <=? 160)%N) || (n =? 173)%N.

Fixpoint contains_char (c : ascii) (s : string) : bool :=
  match s with
  | EmptyString => false
  | String a rest => Ascii.eqb a c || contains_char c rest
  end.

Definition repr_char (quote c : ascii) : string :=
  if Ascii.eqb c quote || Ascii.eqb c "092" then String "092" (String c "")
  else if Ascii.eqb c "009"%char then "\t"
  else if Ascii.eqb c "010"%char then "\n"
  else if Ascii.eqb c "013"%char then "\r"
  else if nonprintable c then hex_escape c
  else String c "".

Fixpoint repr_chars (quote : ascii) (s : string) : string :=
  match s with
  | EmptyString => ""
  | String c rest => repr_char quote c +:+ repr_chars quote rest
  end.

(** [repr(s)] for a [str]: single quotes, unless the text has a single quote
    and no double quote. *)
Definition repr_str (s : string) : string :=
  let quote : ascii :=
    if contains_char "039" s && negb (contains_char "034" s)
    then "034"%char else "039"%char in
  String quote (repr_chars quote s +:+ String quote "").

Definition repr_int (z : Z) : string := NilZero.string_of_int (Z.to_int z).

(** [repr(v)] *)
Fixpoint repr (v : PyVal) : string :=
  match v with
  | PyNone => "None"
  | PyBool true => "True"
  | PyBool false => "False"
  | PyInt z => repr_int z
  | PyStr s => repr_str s
  | PyList l => "[" +:+ join ", " (map repr l) +:+ "]"
  | PyDict d =>
      "{" +:+ join ", " (map (fun kv => repr_str (fst kv) +:+ ": " +:+ repr (snd kv)) d) +:+ "}"
  end.

(** [str(v)]: a [str] is itself, everything else is its [repr]. *)
Definition py_str (v : PyVal) : string :=
  match v with
  | PyStr s => s
  | _ => repr v
  end.

(** [isinstance(v, str)] *)
Definition isinstance_str (v : PyVal) : bool :=
  match v with PyStr _ => true | _ => false end.

(** truth value of a [str]: non-empty *)
Definition truthy_str (s : string) : bool :=
  match s with EmptyString => false | _ => true end.

(** code points below 256 that [str.isspace] accepts *)
Definition is_space (c : ascii) : bool :=
  let n := N_of_ascii c in
  ((9 <=? n)%N && (n <=? 13)%N) || ((28 <=? n)%N && (n <=? 32)%N)
  || (n =? 133)%N || (n =? 160)%N.

Fixpoint lstrip_chars (l : list ascii) : list ascii :=
  match l with
  | c :: rest => if is_space c then lstrip_chars rest else l
  | [] => []
  end.

(** [s.strip()] *)
Definition strip (s : string) : string :=
  string_of_list_ascii
    (rev (lstrip_chars (rev (lstrip_chars (list_ascii_of_string s))))).

(* ===================================================================== *)
(** ** Exceptions and results *)
(* ===================================================================== *)

(** Instances of [Exception] that the code raises or receives.
    [OtherError cls msg] is an instance of any other subclass of [Exception]
    raised by a backend, the database or the chunker factory, with the name
    of its class and its [str].  What derives from [BaseException] alone
    ([KeyboardInterrupt], [SystemExit]) is not a failure of a call, passes
    through every [except Exception], and is left out. *)
Inductive PyExc : Type :=
| ValueError (msg : string)
| FileNotFoundError (msg : string)
| RuntimeError (msg : string)
| UnboundLocalError (var : string)
| OtherError (cls : string) (msg : string).

(** [str(e)]; for [UnboundLocalError] the wording of CPython 3.11 and later. *)
Definition str_exc (e : PyExc) : string :=
  match e with
  | ValueError msg | FileNotFoundError msg | RuntimeError msg => msg
  | UnboundLocalError var =>
      "cannot access local variable '" +:+ var
        +:+ "' where it is not associated with a value"
  | OtherError _ msg => msg
  end.

(** [type(e).__name__] *)
Definition exc_class (e : PyExc) : string :=
  match e with
  | ValueError _ => "ValueError"
  | FileNotFoundError _ => "FileNotFoundError"
  | RuntimeError _ => "RuntimeError"
  | UnboundLocalError _ => "UnboundLocalError"
  | OtherError cls _ => cls
  end.

Inductive Result (A : Type) : Type :=
| Ok (a : A)
| Raise (e : PyExc).
Arguments Ok {A} a.
Arguments Raise {A} e.

(* ===================================================================== *)
(** ** Enumerations of [services.base] *)
(* ===================================================================== *)

(** Modelled from the spec: the declaration of [services.base.OutputFormat]
    is not among the sources.  Its members are the three that
    [OCRFactory.convert_async] dispatches on, with the values "markdown",
    "json" and "text" that the defaults and the examples of [api.py] pass.
    The docstrings of [api.py] name a fourth value, "html", for which
    [convert_async] has no branch; the properties that depend on a value
    being refused are stated under the hypothesis that it is. *)
Inductive OutputFormat : Type := MARKDOWN | JSON | TEXT.

Definition OutputFormat_eqb (a b : OutputFormat) : bool :=
  match a, b with
  | MARKDOWN, MARKDOWN | JSON, JSON | TEXT, TEXT => true
  | _, _ => false
  end.

(** [fmt.value] *)
Definition OutputFormat_value (fmt : OutputFormat) : string :=
  match fmt with
  | MARKDOWN => "markdown"
  | JSON => "json"
  | TEXT => "text"
  end.

(** [str(fmt)] *)
Definition OutputFormat_str (fmt : OutputFormat) : string :=
  match fmt with
  | MARKDOWN => "OutputFormat.MARKDOWN"
  | JSON => "OutputFormat.JSON"
  | TEXT => "OutputFormat.TEXT"
  end.

(** [OutputFormat(value)]: lookup by value, [ValueError] for a value that no
    member has. *)
Definition OutputFormat_call (value : string) : Result OutputFormat :=
  if String.eqb value "markdown" then Ok MARKDOWN
  else if String.eqb value "json" then Ok JSON
  else if String.eqb value "text" then Ok TEXT
  else Raise (ValueError (repr_str value +:+ " is not a valid OutputFormat")).

(** Modelled from the spec: the declaration of [services.base.DownloadStatus]
    is not among the sources; the spec (section 3) lists its five members. *)
Inductive DownloadStatus : Type :=
| NOT_REQUIRED | PENDING | DOWNLOADING | READY | FAILED.

(* ===================================================================== *)
(** ** Effects: events, the world, the monad *)
(* ===================================================================== *)

Inductive LogLevel : Type := INFO | WARNING | ERROR.

(** What a run does outside the orchestration layer, in program order. *)
Inductive Event : Type :=
| EvLog (level : LogLevel) (msg : string)       (* logger.info / warning / error *)
| EvDbQuery                                      (* db_service.get_enabled_libraries() *)
| EvGetConverter (name : string)                 (* factory.get_converter(name) *)
| EvPathExists (path : string)                   (* Path(path).exists() *)
| EvGlob (dir : string)                          (* Path(dir).glob("*.pdf") *)
| EvBackend (converter : string) (fmt : OutputFormat) (file_path : string)
                                                 (* converter.convert_to_*(file_path) *)
| EvSubprocess (cmd : list string)               (* subprocess.run(cmd, ...) *)
| EvListChunkers                                 (* factory.list_available_chunkers() *)
| EvDefaultChunker                               (* factory.get_default_chunker() *)
| EvChunk (chunker text : string) (kwargs : list (string * PyVal)).
                                                 (* factory.chunk_with_result(...) *)

(** The outcome of a run: its trace and its value or exception. *)
Definition Run (A : Type) : Type := (list Event * Result A)%type.

(** An attribute that a class may or may not define, as [getattr] with a
    default sees it. *)
Inductive Attribute (A : Type) : Type :=
| NoAttribute
| HasAttribute (a : A).
Arguments NoAttribute {A}.
Arguments HasAttribute {A} a.

(** The abstract class [services.base.PDFConverter], as the factory and the
    facade use it: an object is the record of its properties and methods.
    The factory reads [error_message] through [getattr] with a default. *)
Module PDFConverter.
Record t : Type := {
  name : string;
  available : bool;
  error_message : Attribute (option string);
  supports_format : OutputFormat -> bool;
  convert_to_md : string -> Run PyVal;
  convert_to_json : string -> Run PyVal;
  convert_to_text : string -> Run PyVal
}.
End PDFConverter.

(** The object [services.chunker_factory.get_chunker_factory()] returns, as
    [chunk_text_async] uses it.  [to_dict] is the rendering of a chunking
    result. *)
Record Chunker : Type := { chunker_name : string }.
Record ChunkingResult : Type := { to_dict : PyVal }.

Module ChunkerFactory.
Record t : Type := {
  list_available_chunkers : list string;
  get_default_chunker : option Chunker;
  chunk_with_result :
    string -> string -> list (string * PyVal) -> Result ChunkingResult
}.
End ChunkerFactory.

(** A [pathlib.Path] that [glob] yields: its [.name] and its [str()]. *)
Record DirEntry : Type := { entry_name : string; entry_path : string }.

(** [subprocess.CompletedProcess] *)
Record CompletedProcess : Type :=
  { returncode : Z; stdout : string; stderr : string }.

(** Everything the orchestration layer reads from outside itself. *)
Record World : Type := {
  (* file system *)
  fs_exists : string -> bool;
  fs_glob_pdf : string -> list DirEntry;
  fs_resolve : string -> string;
  (* DatabaseService.get_enabled_libraries(), and how CPython prints a set *)
  db_get_enabled_libraries : Result (list string);
  repr_set : gset string -> string;
  (* the converter classes ocrfactory.py imports: the object each one builds *)
  PyMuPDF4LLMConverter : PDFConverter.t;
  MarkItDownConverter : PDFConverter.t;
  MarkerConverter : PDFConverter.t;
  DoclingConverter : PDFConverter.t;
  PaddleOCRConverter : PDFConverter.t;
  DeepSeekOCRTransformersConverter : PDFConverter.t;
  PyTesseractConverter : PDFConverter.t;
  UnstructuredConverter : PDFConverter.t;
  (* services.chunker_factory *)
  get_chunker_factory : ChunkerFactory.t;
  (* mineru_converter.py: the module constant, the base class method it
     inherits, the temporary directory, the CLI run, the files found after
     the run (None: no such file), and the seven re.sub calls in a row *)
  MINERU_AVAILABLE : bool;
  base_supports_format : OutputFormat -> bool;
  mkdtemp : string;
  subprocess_run : list string -> Result CompletedProcess;
  after_run_read_text : list string -> string -> option (Result string);
  after_run_rglob_md : list string -> string -> list string;
  path_stem : string -> string;
  re_sub_markdown : string -> string
}.

(** Computations: they read the world, leave a trace, and return or raise. *)
Definition M (A : Type) : Type := World -> Run A.

Definition ret {A : Type} (a : A) : M A := fun _ => ([], Ok a).

Definition raise {A : Type} (e : PyExc) : M A := fun _ => ([], Raise e).

Definition bind {A B : Type} (m : M A) (k : A -> M B) : M B :=
  fun w =>
    match m w with
    | (t, Ok a) => let '(t', r) := k a w in (t ++ t', r)
    | (t, Raise e) => (t, Raise e)
    end.

Notation "x <- c ;; k" := (bind c (fun x => k))
  (at level 100, c at next level, k at level 200, right associativity).
Notation "c ;; k" := (bind c (fun _ => k))
  (at level 100, k at level 200, right associativity).

(** [try: body / except Exception as e: handler e] *)
Definition try_except {A : Type} (body : M A) (handler : PyExc -> M A) : M A :=
  fun w =>
    match body w with
    | (t, Ok a) => (t, Ok a)
    | (t, Raise e) => let '(t', r) := handler e w in (t ++ t', r)
    end.

Definition tell (ev : Event) : M unit := fun _ => ([ev], Ok tt).
Definition ask {A : Type} (f : World -> A) : M A := fun w => ([], Ok (f w)).
Definition lift_result {A : Type} (r : Result A) : M A := fun _ => ([], r).
Definition lift_run {A : Type} (r : Run A) : M A := fun _ => r.

(** [for x in l: body x], threading the value the body updates *)
Fixpoint for_each {A S : Type} (l : list A) (body : S -> A -> M S) (s : S) : M S :=
  match l with
  | [] => ret s
  | x :: rest => s' <- body s x ;; for_each rest body s'
  end.

(** [[f x for x in l]] *)
Fixpoint list_comp {A B : Type} (f : A -> M B) (l : list A) : M (list B) :=
  match l with
  | [] => ret []
  | x :: rest => y <- f x ;; ys <- list_comp f rest ;; ret (y :: ys)
  end.

(** A coroutine is a computation that has not run yet; [await] and
    [asyncio.run] run it to completion where they stand.  ([asyncio.run] is
    called on a thread that has no event loop running.) *)
Definition Coroutine (A : Type) : Type := M A.
Definition await {A : Type} (c : Coroutine A) : M A := c.
Definition asyncio_run {A : Type} (c : Coroutine A) : M A := c.

(** What the facade of [api.py] calls on its [_factory]: any object with
    these five methods will do. *)
Module ConverterFactory.
Record t : Type := {
  get_converter : string -> M (option PDFConverter.t);
  list_available_converters : M (list string);
  list_all_converters : M (list PyVal);
  convert : string -> string -> OutputFormat -> M PyVal;
  convert_async : string -> string -> OutputFormat -> Coroutine PyVal
}.
End ConverterFactory.

(** A method that assigns to [self] runs to a pair: the object it leaves
    behind and how the call ended. *)
Definition outcome {S A : Type} (r : Run (S * Result A)) : Result A :=
  match snd r with
  | Ok (_, o) => o
  | Raise e => Raise e
  end.

Definition object_after {S A : Type} (self : S) (r : Run (S * Result A)) : S :=
  match snd r with
  | Ok (self', _) => self'
  | Raise _ => self
  end.

(** reading a local variable: [None] stands for a name that was never bound *)
Definition load_local {A : Type} (var : string) (v : option A) : M A :=
  match v with
  | Some a => ret a
  | None => raise (UnboundLocalError var)
  end.

Definition logger_info (msg : string) : M unit := tell (EvLog INFO msg).
Definition logger_warning (msg : string) : M unit := tell (EvLog WARNING msg).
Definition logger_error (msg : string) : M unit := tell (EvLog ERROR msg).

Definition Path_exists (path : string) : M bool :=
  tell (EvPathExists path) ;; ask (fun w => fs_exists w path).

Definition Path_glob_pdf (dir : string) : M (list DirEntry) :=
  tell (EvGlob dir) ;; ask (fun w => fs_glob_pdf w dir).

(** [a / b] on paths *)
Definition path_join (a b : string) : string := a +:+ "/" +:+ b.

(* ===================================================================== *)
(** ** Insertion-ordered dictionaries with [str] keys *)
(* ===================================================================== *)

(** [d.get(k)] *)
Fixpoint dict_get {V : Type} (k : string) (d : list (string * V)) : option V :=
  match d with
  | [] => None
  | (k', v) :: rest => if String.eqb k' k then Some v else dict_get k rest
  end.

(** [d[k] = v]: a key already there keeps its place, a new one goes last *)
Fixpoint dict_set {V : Type} (k : string) (v : V) (d : list (string * V))
  : list (string * V) :=
  match d with
  | [] => [(k, v)]
  | (k', v') :: rest =>
      if String.eqb k' k then (k', v) :: rest else (k', v') :: dict_set k v rest
  end.

(** [list(d.keys())] *)
Definition dict_keys {V : Type} (d : list (string * V)) : list string :=
  map fst d.

(** [d[key]] for a [str] key: the value under the key in a dict, [KeyError]
    when the dict has no such key, [TypeError] for what is not a dict (the
    wording of CPython 3.11 and later). *)
Definition py_getitem (d : PyVal) (key : string) : Result PyVal :=
  match d with
  | PyDict kv =>
      match dict_get key kv with
      | Some v => Ok v
      | None => Raise (OtherError "KeyError" (repr_str key))
      end
  | PyNone => Raise (OtherError "TypeError" "'NoneType' object is not subscriptable")
  | PyBool _ => Raise (OtherError "TypeError" "'bool' object is not subscriptable")
  | PyInt _ => Raise (OtherError "TypeError" "'int' object is not subscriptable")
  | PyStr _ => Raise (OtherError "TypeError" "string indices must be integers, not 'str'")
  | PyList _ =>
      Raise (OtherError "TypeError" "list indices must be integers or slices, not str")
  end.

(** [v == s] for a [str] [s] *)
Definition py_eq_str (v : PyVal) (s : string) : bool :=
  match v with
  | PyStr s' => String.eqb s' s
  | _ => false
  end.

(* ===================================================================== *)
(** ** [services/ocrfactory.py]: class [OCRFactory] *)
(* ===================================================================== *)

(** [self.db_service.get_enabled_libraries()] *)
Definition db_service_get_enabled_libraries : M (list string) :=
  tell EvDbQuery ;; (fun w => ([], db_get_enabled_libraries w)).

(** an [Optional[str]] as a value *)
Definition optional_str (o : option string) : PyVal :=
  match o with
  | Some s => PyStr s
  | None => PyNone
  end.

(** [getattr(converter, "error_message", default)]; [converter] may be [None] *)
Definition getattr_error_message (converter : option PDFConverter.t)
    (default : string) : PyVal :=
  match converter with
  | Some c =>
      match PDFConverter.error_message c with
      | HasAttribute m => optional_str m
      | NoAttribute => PyStr default
      end
  | None => PyStr default
  end.

(** The local [enabled_libraries] after the [try] block that both
    [_register_default_converters] and [list_all_converters] start with:
    bound to the set when the query returns, left unbound ([None]) when the
    query raises and the handler only logs. *)
Definition try_load_enabled_libraries : M (option (gset string)) :=
  try_except
    (libs <- db_service_get_enabled_libraries ;;
     ret (Some (list_to_set libs)))
    (fun e =>
       logger_error ("Failed to load enabled libraries from DB: " +:+ str_exc e) ;;
       ret None).

Module OCRFactory.
Import PDFConverter.

(** The attribute [_converters]; [db_service] is the database of the
    world.  A method that assigns to [self] returns the object it leaves
    behind together with its outcome. *)
Record t : Type := { _converters : list (string * PDFConverter.t) }.

Definition all_converters (w : World) : list PDFConverter.t :=
  [ PyMuPDF4LLMConverter w;
    MarkItDownConverter w;
    MarkerConverter w;
    DoclingConverter w;
    PaddleOCRConverter w;
    DeepSeekOCRTransformersConverter w;
    PyTesseractConverter w;
    UnstructuredConverter w ].

(** the body of [for converter in all_converters] *)
Definition register_converter (enabled_libraries : gset string)
    (self : t) (converter : PDFConverter.t) : M t :=
  if bool_decide (name converter ∉ enabled_libraries) then
    ret self                                               (* continue *)
  else if available converter then
    let self' :=
      {| _converters := dict_set (name converter) converter (_converters self) |} in
    logger_info ("Registered converter: " +:+ name converter) ;;
    ret self'
  else
    let error_msg :=
      getattr_error_message (Some converter) "Dependencies not installed" in
    logger_warning ("Converter " +:+ name converter
                      +:+ " is not available: " +:+ py_str error_msg) ;;
    ret self.

Definition _register_default_converters (self : t) : M (t * Result unit) :=
  enabled_libraries <- try_load_enabled_libraries ;;
  match enabled_libraries with
  | None =>
      (* the f-string of logger.info reads the unbound local *)
      ret (self, Raise (UnboundLocalError "enabled_libraries"))
  | Some enabled_libraries =>
      set_text <- ask (fun w => repr_set w enabled_libraries) ;;
      logger_info ("Loading enabled libraries: " +:+ set_text) ;;
      if bool_decide (size enabled_libraries = 0) then
        logger_warning
          "No enabled libraries found in DB. Registering all converters." ;;
        ret (self, Ok tt)                                  (* return *)
      else
        all <- ask all_converters ;;
        self' <- for_each all (register_converter enabled_libraries) self ;;
        ret (self', Ok tt)
  end.

(** [OCRFactory(db_service)]: no object when the body raises *)
Definition __init__ : M t :=
  out <- _register_default_converters {| _converters := [] |} ;;
  match snd out with
  | Ok _ => ret (fst out)
  | Raise e => raise e
  end.

Definition refresh_converters (self : t) : M (t * Result unit) :=
  let self := {| _converters := [] |} in
  _register_default_converters self.

Definition get_converter (self : t) (name : string) : M (option PDFConverter.t) :=
  tell (EvGetConverter name) ;;
  ret (dict_get name (_converters self)).

Definition list_available_converters (self : t) : M (list string) :=
  ret (dict_keys (_converters self)).

Definition list_all_converters (self : t) : M (list PyVal) :=
  enabled_libraries <- try_load_enabled_libraries ;;
  let all_converters :=
    [ "pymupdf4llm"; "markitdown"; "marker"; "docling";
      "paddleocr"; "deepseekocr"; "pytesseract"; "unstructured" ] in
  list_comp
    (fun name =>
       let converter := dict_get name (_converters self) in
       let available :=
         match converter with
         | Some c => PDFConverter.available c
         | None => false
         end in
       let error :=
         if available then PyNone
         else getattr_error_message converter "Unavailable" in
       enabled <- load_local "enabled_libraries" enabled_libraries ;;
       ret (PyDict [ ("name", PyStr name);
                     ("available", PyBool available);
                     ("error", error);
                     ("enabled", PyBool (bool_decide (name ∈ enabled))) ]))
    all_converters.

Definition convert_async (self : t) (converter_name file_path : string)
    (output_format : OutputFormat) : Coroutine PyVal :=
  converter <- get_converter self converter_name ;;
  match converter with
  | None =>
      raise (ValueError ("Converter '" +:+ converter_name +:+ "' is not available"))
  | Some converter =>
      if negb (supports_format converter output_format) then
        raise (ValueError ("Converter '" +:+ converter_name
                             +:+ "' does not support format '"
                             +:+ OutputFormat_value output_format +:+ "'"))
      else if OutputFormat_eqb output_format MARKDOWN then
        tell (EvBackend (name converter) MARKDOWN file_path) ;;
        await (lift_run (convert_to_md converter file_path))
      else if OutputFormat_eqb output_format JSON then
        tell (EvBackend (name converter) JSON file_path) ;;
        await (lift_run (convert_to_json converter file_path))
      else if OutputFormat_eqb output_format TEXT then
        tell (EvBackend (name converter) TEXT file_path) ;;
        await (lift_run (convert_to_text converter file_path))
      else
        raise (ValueError ("Unsupported output format: "
                             +:+ OutputFormat_str output_format))
  end.

(** synchronous wrapper: [asyncio.run(self.convert_async(...))] *)
Definition convert (self : t) (converter_name file_path : string)
    (output_format : OutputFormat) : M PyVal :=
  asyncio_run (convert_async self converter_name file_path output_format).

(** the object, as a caller of its methods holds it *)
Definition as_factory (self : t) : ConverterFactory.t :=
  {| ConverterFactory.get_converter := get_converter self;
     ConverterFactory.list_available_converters := list_available_converters self;
     ConverterFactory.list_all_converters := list_all_converters self;
     ConverterFactory.convert := convert self;
     ConverterFactory.convert_async := convert_async self |}.
End OCRFactory.

(* ===================================================================== *)
(** ** [pdfstract/api.py]: class [PDFStract] *)
(* ===================================================================== *)

(** The aggregate [batch_convert] returns: the dict with the three fixed
    keys "success", "failed" and "results". *)
Record BatchResult : Type := {
  success : nat;
  failed : nat;
  results : gmap string PyVal
}.

(** the tuple [(filename, status, error, result)] of the helper [convert_pdf] *)
Definition ItemOutcome : Type := (string * string * PyVal * PyVal)%type.

(** the body of [for future in futures] *)
Definition collect (acc : BatchResult) (outcome : ItemOutcome) : BatchResult :=
  let '(filename, status, error, result) := outcome in
  if String.eqb status "success" then
    {| success := success acc + 1;
       failed := failed acc;
       results := <[filename := result]> (results acc) |}
  else
    {| success := success acc;
       failed := failed acc + 1;
       results := <[filename := PyDict [("error", error)]]> (results acc) |}.

(** [sorted(...)] of directory entries: paths of one directory compare by
    their last component. *)
Fixpoint insert_sorted (e : DirEntry) (l : list DirEntry) : list DirEntry :=
  match l with
  | [] => [e]
  | x :: rest =>
      if String.leb (entry_name e) (entry_name x) then e :: l
      else x :: insert_sorted e rest
  end.

Definition sorted (l : list DirEntry) : list DirEntry :=
  fold_right insert_sorted [] l.

Module PDFStract.

(** The attribute [_factory].  The class the constructor puts there,
    [services.cli_factory.CLILazyFactory], is not among the sources; the
    facade works with any object that has the methods it calls, and
    [OCRFactory] is the factory of the sources that has them ([over]).
    A path argument is the text of [str(Path(pdf_path))]. *)
Record t : Type := { _factory : ConverterFactory.t }.

(** the facade over a factory of [ocrfactory.py] *)
Definition over (factory : OCRFactory.t) : t :=
  {| _factory := OCRFactory.as_factory factory |}.

Definition list_libraries (self : t) : M (list PyVal) :=
  ConverterFactory.list_all_converters (_factory self).

Definition list_available_libraries (self : t) : M (list string) :=
  ConverterFactory.list_available_converters (_factory self).

(** [f"Library '{library}' not available. Available: {available}"] *)
Definition not_available_message (library : string) (available : list string) : string :=
  "Library '" +:+ library +:+ "' not available. Available: "
    +:+ py_str (PyList (map PyStr available)).

Definition convert (self : t) (pdf_path library output_format : string) : M PyVal :=
  (* Check library availability first (before checking file) *)
  converter <- ConverterFactory.get_converter (_factory self) library ;;
  match converter with
  | None =>
      available <- list_available_libraries self ;;
      raise (ValueError (not_available_message library available))
  | Some _ =>
      (* Then check if file exists *)
      pdf_exists <- Path_exists pdf_path ;;
      if negb pdf_exists then
        raise (FileNotFoundError ("PDF file not found: " +:+ pdf_path))
      else
        try_except
          (fmt <- lift_result (OutputFormat_call output_format) ;;
           ConverterFactory.convert (_factory self) library pdf_path fmt)
          (fun e => raise (ValueError ("Conversion failed: " +:+ str_exc e)))
  end.

Definition convert_async (self : t) (pdf_path library output_format : string)
  : Coroutine PyVal :=
  pdf_exists <- Path_exists pdf_path ;;
  if negb pdf_exists then
    raise (FileNotFoundError ("PDF file not found: " +:+ pdf_path))
  else
    converter <- ConverterFactory.get_converter (_factory self) library ;;
    match converter with
    | None =>
        available <- list_available_libraries self ;;
        raise (ValueError (not_available_message library available))
    | Some _ =>
        try_except
          (fmt <- lift_result (OutputFormat_call output_format) ;;
           await (ConverterFactory.convert_async (_factory self) library pdf_path fmt))
          (fun e => raise (ValueError ("Conversion failed: " +:+ str_exc e)))
    end.

(** the helper [convert_pdf] local to [batch_convert] *)
Definition convert_pdf (self : t) (library : string)
    (output_format_enum : OutputFormat) (pdf_file : DirEntry) : M ItemOutcome :=
  try_except
    (result <- ConverterFactory.convert (_factory self) library
                 (entry_path pdf_file) output_format_enum ;;
     ret (entry_name pdf_file, "success", PyNone, result))
    (fun e => ret (entry_name pdf_file, "failed", PyStr (str_exc e), PyNone)).

(** [ThreadPoolExecutor(max_workers=n)] refuses a pool without workers. *)
Definition ThreadPoolExecutor (max_workers : Z) : M unit :=
  if (max_workers <=? 0)%Z then
    raise (ValueError "max_workers must be greater than 0")
  else ret tt.

(** The pool runs [convert_pdf] once per file; the futures are read in the
    order of submission, so the outcomes reach the loop in the order of
    [pdf_files].  The runs are laid out one after the other in the trace;
    their interleaving in the pool is not modelled. *)
Definition batch_convert (self : t) (pdf_directory library output_format : string)
    (parallel_workers : Z) : M BatchResult :=
  let pdf_dir := pdf_directory in
  dir_exists <- Path_exists pdf_dir ;;
  if negb dir_exists then
    raise (ValueError ("Directory not found: " +:+ pdf_dir))
  else
    globbed <- Path_glob_pdf pdf_dir ;;
    let pdf_files := sorted globbed in
    match pdf_files with
    | [] => ret {| success := 0; failed := 0; results := ∅ |}
    | _ :: _ =>
        converter <- ConverterFactory.get_converter (_factory self) library ;;
        match converter with
        | None =>
            available <- list_available_libraries self ;;
            raise (ValueError (not_available_message library available))
        | Some _ =>
            let results := {| success := 0; failed := 0; results := ∅ |} in
            output_format_enum <- lift_result (OutputFormat_call output_format) ;;
            ThreadPoolExecutor parallel_workers ;;
            futures <- list_comp (convert_pdf self library output_format_enum) pdf_files ;;
            ret (fold_left collect futures results)
        end
    end.

(* ----- chunking API ----- *)

Definition chunk_text_async (self : t) (text chunker : string)
    (kwargs : list (string * PyVal)) : Coroutine PyVal :=
  factory <- ask get_chunker_factory ;;
  tell EvListChunkers ;;
  let available := ChunkerFactory.list_available_chunkers factory in
  chunker <-
    (if String.eqb chunker "auto" then
       tell EvDefaultChunker ;;
       match ChunkerFactory.get_default_chunker factory with
       | None => raise (ValueError "No available chunkers found for auto-selection")
       | Some chunker_instance => ret (chunker_name chunker_instance)
       end
     else ret chunker) ;;
  if bool_decide (chunker ∉ available) then
    raise (ValueError ("Chunker '" +:+ chunker +:+ "' not available. Available: "
                         +:+ py_str (PyList (map PyStr available))))
  else if negb (truthy_str text) || negb (truthy_str (strip text)) then
    raise (ValueError "Text cannot be empty")
  else
    tell (EvChunk chunker text kwargs) ;;
    result <- lift_result (ChunkerFactory.chunk_with_result factory chunker text kwargs) ;;
    ret (to_dict result).

Definition chunk_text (self : t) (text chunker : string)
    (kwargs : list (string * PyVal)) : M PyVal :=
  asyncio_run (chunk_text_async self text chunker kwargs).

Definition chunk (self : t) (text chunker : string)
    (kwargs : list (string * PyVal)) : M PyVal :=
  chunk_text self text chunker kwargs.

Definition chunk_async (self : t) (text chunker : string)
    (kwargs : list (string * PyVal)) : Coroutine PyVal :=
  await (chunk_text_async self text chunker kwargs).

(** [chunker_params or {}] *)
Definition or_empty (chunker_params : option (list (string * PyVal)))
  : list (string * PyVal) :=
  match chunker_params with
  | Some (kv :: rest) => kv :: rest
  | Some [] | None => []
  end.

(** [content if isinstance(content, str) else str(content)] *)
Definition text_of (extracted_content : PyVal) : string :=
  match extracted_content with
  | PyStr s => s
  | other => py_str other
  end.

(** A key of [**kwargs] that the call already gives by keyword. *)
Definition given_by_keyword (key : string) : bool :=
  String.eqb key "text" || String.eqb key "chunker".

(** The call [self.chunk_text_async(text=..., chunker=..., **kwargs)].
    Python binds the arguments before the body of the coroutine runs.  The
    keywords of the call and the keys of [kwargs] are merged first, the keys
    in their order: the first key "text" or "chunker" raises [TypeError]
    there.  Then the arguments are bound to the parameters
    [(self, text, chunker, **kwargs)]: a key "self" meets the object of the
    bound method and raises [TypeError].  Any other key goes to the
    [**kwargs] of the method.  (Messages in the wording of CPython 3.11.) *)
Definition call_chunk_text_async (self : t) (text chunker : string)
    (kwargs : list (string * PyVal)) : Coroutine PyVal :=
  match find given_by_keyword (dict_keys kwargs) with
  | Some key =>
      raise (OtherError "TypeError"
               ("pdfstract.api.PDFStract.chunk_text_async() got multiple values "
                  +:+ "for keyword argument " +:+ repr_str key))
  | None =>
      if existsb (String.eqb "self") (dict_keys kwargs) then
        raise (OtherError "TypeError"
                 "PDFStract.chunk_text_async() got multiple values for argument 'self'")
      else chunk_text_async self text chunker kwargs
  end.

Definition convert_chunk_async (self : t) (pdf_path library chunker output_format : string)
    (chunker_params : option (list (string * PyVal))) : Coroutine PyVal :=
  extracted_content <- await (convert_async self pdf_path library output_format) ;;
  chunking_result <-
    await (call_chunk_text_async self (text_of extracted_content) chunker
             (or_empty chunker_params)) ;;
  ret (PyDict [ ("extracted_content", extracted_content);
                ("chunking_result", chunking_result) ]).

Definition convert_chunk (self : t) (pdf_path library chunker output_format : string)
    (chunker_params : option (list (string * PyVal))) : M PyVal :=
  asyncio_run
    (convert_chunk_async self pdf_path library chunker output_format
       (Some (or_empty chunker_params))).

(* ----- introspection ----- *)

Definition list_available_chunkers (self : t) : M (list string) :=
  factory <- ask get_chunker_factory ;;
  tell EvListChunkers ;;
  ret (ChunkerFactory.list_available_chunkers factory).

(** [next((lib for lib in all_libs if lib["name"] == library), None)]: the
    records are tried in order, and [lib["name"]] is read only as far as the
    search goes. *)
Fixpoint next_named (library : string) (all_libs : list PyVal) : M (option PyVal) :=
  match all_libs with
  | [] => ret None
  | lib :: rest =>
      lib_name <- lift_result (py_getitem lib "name") ;;
      if py_eq_str lib_name library then ret (Some lib)
      else next_named library rest
  end.

Definition get_converter_info (self : t) (library : string) : M (option PyVal) :=
  all_libs <- list_libraries self ;;
  next_named library all_libs.
End PDFStract.

(* ===================================================================== *)
(** ** [services/converters/mineru_converter.py]: class [MinerUConverter] *)
(* ===================================================================== *)

Definition run_map {A B : Type} (f : A -> B) (r : Run A) : Run B :=
  match r with
  | (t, Ok a) => (t, Ok (f a))
  | (t, Raise e) => (t, Raise e)
  end.

Module MinerUConverter.

Record t : Type := {
  _initialized : bool;
  _download_status : DownloadStatus;
  _download_error : option string;
  _is_downloading : bool
}.

Definition __init__ : t :=
  {| _initialized := true;                 (* No lazy init needed for CLI *)
     _download_status := NOT_REQUIRED;
     _download_error := None;
     _is_downloading := false |}.

Definition name (self : t) : string := "mineru".

Definition available (self : t) : M bool := ask MINERU_AVAILABLE.

Definition error_message (self : t) : M (option string) :=
  mineru_available <- ask MINERU_AVAILABLE ;;
  if negb mineru_available then
    ret (Some "Install with: pip install 'magic-pdf[full]'. Use Docker for full support.")
  else ret None.

Definition requires_download (self : t) : bool := false.

Definition download_status (self : t) : DownloadStatus := NOT_REQUIRED.

Definition download_error (self : t) : option string := _download_error self.

(** [async def prepare(self) -> bool]: the value it returns, with the
    object as the call leaves it *)
Definition prepare (self : t) : Coroutine (t * bool) :=
  mineru_available <- ask MINERU_AVAILABLE ;;
  ret (self, mineru_available).

(** [p.exists()] and [p.read_text(encoding="utf-8")] for a file under the
    output directory, once the command has run *)
Definition exists_after (cmd : list string) (p : string) : M bool :=
  tell (EvPathExists p) ;;
  ask (fun w => bool_decide (is_Some (after_run_read_text w cmd p))).

Definition read_text_after (cmd : list string) (p : string) : M string :=
  fun w =>
    match after_run_read_text w cmd p with
    | Some r => ([], r)
    | None =>
        ([], Raise (FileNotFoundError
                      ("[Errno 2] No such file or directory: " +:+ repr_str p)))
    end.

Definition len (s : string) : string := repr_int (Z.of_nat (String.length s)).

(** [for p in possible_md: if p.exists(): ... return content] *)
Fixpoint first_existing_md (cmd : list string) (possible_md : list string)
  : M (option string) :=
  match possible_md with
  | [] => ret None
  | p :: rest =>
      p_exists <- exists_after cmd p ;;
      if p_exists then
        content <- read_text_after cmd p ;;
        logger_info ("MinerU: Successfully converted, output length: "
                       +:+ len content) ;;
        ret (Some content)
      else first_existing_md cmd rest
  end.

Definition _convert_sync (self : t) (file_path output_format : string) : M string :=
  input_path <- ask (fun w => fs_resolve w file_path) ;;
  input_exists <- Path_exists input_path ;;
  if negb input_exists then
    raise (RuntimeError ("MinerU: Input file not found: " +:+ file_path))
  else
    tmpdir <- ask mkdtemp ;;
    let out_dir := path_join tmpdir "mineru_out" in
    let cmd := ["mineru"; "-p"; input_path; "-o"; out_dir; "-b"; "pipeline"] in
    logger_info ("MinerU: Running " +:+ join " " cmd) ;;
    tell (EvSubprocess cmd) ;;
    result <- (fun w => ([], subprocess_run w cmd)) ;;
    logger_info ("MinerU: Result: " +:+ stdout result +:+ " " +:+ stderr result) ;;
    if negb (returncode result =? 0)%Z then
      let err :=
        if truthy_str (stderr result) then stderr result
        else if truthy_str (stdout result) then stdout result
        else "Exit code " +:+ repr_int (returncode result) in
      raise (RuntimeError ("MinerU CLI failed: " +:+ err))
    else
      stem <- ask (fun w => path_stem w input_path) ;;
      let possible_md :=
        [ path_join (path_join out_dir stem) (stem +:+ ".md");
          path_join out_dir (stem +:+ ".md") ] in
      found <- first_existing_md cmd possible_md ;;
      match found with
      | Some content => ret content
      | None =>
          (* Fallback: find any .md file under out_dir *)
          md_files <- ask (fun w => after_run_rglob_md w cmd out_dir) ;;
          match md_files with
          | first :: _ =>
              content <- read_text_after cmd first ;;
              logger_info ("MinerU: Successfully converted (found " +:+ first
                             +:+ "), length: " +:+ len content) ;;
              ret content
          | [] => raise (RuntimeError "MinerU: No markdown output generated")
          end
      end.

(** [asyncio.to_thread(f, ...)]: the call, awaited *)
Definition to_thread {A : Type} (call : M A) : Coroutine A := call.

Definition convert_to_md (self : t) (file_path : string) : Coroutine string :=
  is_available <- available self ;;
  if negb is_available then
    raise (RuntimeError "MinerU is not available")
  else
    try_except
      (await (to_thread (_convert_sync self file_path "markdown")))
      (fun e =>
         logger_error ("MinerU: Conversion failed: " +:+ str_exc e) ;;
         raise (RuntimeError ("MinerU conversion failed: " +:+ str_exc e))).

Definition convert_to_json (self : t) (file_path : string) : Coroutine PyVal :=
  is_available <- available self ;;
  if negb is_available then
    raise (RuntimeError "MinerU is not available")
  else
    md_content <- await (convert_to_md self file_path) ;;
    ret (PyDict [ ("content", PyStr md_content);
                  ("format", PyStr "markdown");
                  ("library", PyStr (name self)) ]).

Definition convert_to_text (self : t) (file_path : string) : Coroutine string :=
  md_content <- await (convert_to_md self file_path) ;;
  text <- ask (fun w => re_sub_markdown w md_content) ;;
  ret text.

(** The object as the factory and the facade see it, in a given world. *)
Definition as_PDFConverter (w : World) (self : t) : PDFConverter.t :=
  {| PDFConverter.name := name self;
     PDFConverter.available := MINERU_AVAILABLE w;
     PDFConverter.error_message :=
       HasAttribute
         (match snd (error_message self w) with Ok m => m | Raise _ => None end);
     PDFConverter.supports_format := base_supports_format w;
     PDFConverter.convert_to_md := fun p => run_map PyStr (convert_to_md self p w);
     PDFConverter.convert_to_json := fun p => convert_to_json self p w;
     PDFConverter.convert_to_text := fun p => run_map PyStr (convert_to_text self p w) |}.
End MinerUConverter.

(* ===================================================================== *)
(** ** [services/db_methods_snippet.py]: two methods of [DatabaseService] *)
(* ===================================================================== *)

Module DatabaseService.

(** The database file at [self.db_path].  [Opened rows] is a database that
    can be opened and has the table [user_libraries]: its rows
    [(library_name, is_enabled)], with one row per library name at most (the
    conflict target of the upsert).  The queries have no [ORDER BY] and the
    schema is not among the sources, so the order of the rows is a choice of
    this model (the order of insertion); the properties of the table are
    stated on which libraries are listed, not on their order.
    [Failing e] is a database on which [sqlite3.connect] or [execute]
    raises [e]. *)
Inductive t : Type :=
| Opened (rows : list (string * Z))
| Failing (e : PyExc).

(** [SELECT library_name FROM user_libraries WHERE is_enabled = 1] *)
Definition get_enabled_libraries (self : t) : Result (list string) :=
  match self with
  | Opened rows =>
      let fetchall := List.filter (fun row => (snd row =? 1)%Z) rows in
      let libraries := map fst fetchall in
      Ok libraries
  | Failing e => Raise e
  end.

(** [INSERT ... VALUES (?, ?) ON CONFLICT(library_name) DO UPDATE SET
    is_enabled = ?], with [1 if is_enabled else 0] for both parameters: the
    row of the library gets the value, a library without a row gets one.
    The method returns the database it leaves behind and how it ended. *)
Definition set_library_status (self : t) (library_name : string) (is_enabled : bool)
  : t * Result unit :=
  match self with
  | Opened rows =>
      let value := if is_enabled then 1%Z else 0%Z in
      (Opened (dict_set library_name value rows), Ok tt)
  | Failing e => (self, Raise e)
  end.
End DatabaseService.

(** the world in which the [db_service] of the factory is this database *)
Definition world_with_db (w : World) (db : DatabaseService.t) : World :=
  {| fs_exists := fs_exists w;
     fs_glob_pdf := fs_glob_pdf w;
     fs_resolve := fs_resolve w;
     db_get_enabled_libraries := DatabaseService.get_enabled_libraries db;
     repr_set := repr_set w;
     PyMuPDF4LLMConverter := PyMuPDF4LLMConverter w;
     MarkItDownConverter := MarkItDownConverter w;
     MarkerConverter := MarkerConverter w;
     DoclingConverter := DoclingConverter w;
     PaddleOCRConverter := PaddleOCRConverter w;
     DeepSeekOCRTransformersConverter := DeepSeekOCRTransformersConverter w;
     PyTesseractConverter := PyTesseractConverter w;
     UnstructuredConverter := UnstructuredConverter w;
     get_chunker_factory := get_chunker_factory w;
     MINERU_AVAILABLE := MINERU_AVAILABLE w;
     base_supports_format := base_supports_format w;
     mkdtemp := mkdtemp w;
     subprocess_run := subprocess_run w;
     after_run_read_text := after_run_read_text w;
     after_run_rglob_md := after_run_rglob_md w;
     path_stem := path_stem w;
     re_sub_markdown := re_sub_markdown w |}.

(* ===================================================================== *)
(** ** The vocabulary of the specification, in terms of the code *)
(* ===================================================================== *)

(** The error kinds of the specification are the exceptions the facade
    raises: the class and the message of each [raise] statement. *)
Definition BackendNotFound (library : string) (available : list string) : PyExc :=
  ValueError (PDFStract.not_available_message library available).

Definition InputNotFound (pdf_path : string) : PyExc :=
  FileNotFoundError ("PDF file not found: " +:+ pdf_path).

Definition ConversionFailed (e : PyExc) : PyExc :=
  ValueError ("Conversion failed: " +:+ str_exc e).

Definition EmptyInput : PyExc := ValueError "Text cannot be empty".

Definition ChunkerNotAvailable (chunker : string) (available : list string) : PyExc :=
  ValueError ("Chunker '" +:+ chunker +:+ "' not available. Available: "
                +:+ py_str (PyList (map PyStr available))).

Definition NoChunkerAvailable : PyExc :=
  ValueError "No available chunkers found for auto-selection".

(** the capability method a format selects *)
Definition capability (converter : PDFConverter.t) (fmt : OutputFormat)
  : string -> Run PyVal :=
  match fmt with
  | MARKDOWN => PDFConverter.convert_to_md converter
  | JSON => PDFConverter.convert_to_json converter
  | TEXT => PDFConverter.convert_to_text converter
  end.

(** what the batch records for an item, given how its conversion ended *)
Definition entry_of (r : Result PyVal) : PyVal :=
  match r with
  | Ok content => content
  | Raise e => PyDict [("error", PyStr (str_exc e))]
  end.

Definition item_outcome (filename : string) (r : Result PyVal) : ItemOutcome :=
  match r with
  | Ok content => (filename, "success", PyNone, content)
  | Raise e => (filename, "failed", PyStr (str_exc e), PyNone)
  end.

(** the loop [for future in futures] over the tuples of a list of files,
    given how the conversion of each file ended *)
Definition aggregate (run_item : DirEntry -> Result PyVal)
    (files : list DirEntry) (acc : BatchResult) : BatchResult :=
  fold_left collect
    (map (fun f => item_outcome (entry_name f) (run_item f)) files) acc.

Definition is_raise {A : Type} (r : Result A) : bool :=
  match r with Ok _ => false | Raise _ => true end.

(** the text is empty or has white space only: [not text or not text.strip()] *)
Definition blank (text : string) : bool :=
  negb (truthy_str text) || negb (truthy_str (strip text)).

Definition result_map {A B : Type} (f : A -> B) (r : Result A) : Result B :=
  match r with
  | Ok a => Ok (f a)
  | Raise e => Raise e
  end.

(** the dict the combined pipeline returns, given the extracted content and
    how the chunking ended *)
Definition pipeline_result (extracted_content : PyVal) (r : Result PyVal)
  : Result PyVal :=
  result_map
    (fun chunking_result =>
       PyDict [ ("extracted_content", extracted_content);
                ("chunking_result", chunking_result) ])
    r.

(** no key of the chunker parameters is the name of a parameter of
    [chunk_text_async] ("text", "chunker" or "self") *)
Definition plain_params (kwargs : list (string * PyVal)) : bool :=
  forallb
    (fun key =>
       negb (String.eqb key "text" || String.eqb key "chunker" || String.eqb key "self"))
    (dict_keys kwargs).

(** what a chunking call asks the chunker factory before its checks *)
Definition resolution_trace (chunker : string) : list Event :=
  if String.eqb chunker "auto" then [EvListChunkers; EvDefaultChunker]
  else [EvListChunkers].

(** the name a chunking call works with once ["auto"] is resolved *)
Definition resolved_chunker (factory : ChunkerFactory.t) (chunker : string)
  : option string :=
  if String.eqb chunker "auto" then
    chunker_name <$> ChunkerFactory.get_default_chunker factory
  else Some chunker.

(** a converter the build keeps: its name is enabled and it is available *)
Definition enabled_and_available (libs : list string) (c : PDFConverter.t) : bool :=
  bool_decide (PDFConverter.name c ∈ libs) && PDFConverter.available c.

(** one turn of the registration loop, on the registry alone *)
Definition register_step (libs : list string)
    (registry : list (string * PDFConverter.t)) (c : PDFConverter.t)
  : list (string * PDFConverter.t) :=
  if enabled_and_available libs c then dict_set (PDFConverter.name c) c registry
  else registry.

(** the names [list_all_converters] goes through *)
Definition listed_names : list string :=
  [ "pymupdf4llm"; "markitdown"; "marker"; "docling";
    "paddleocr"; "deepseekocr"; "pytesseract"; "unstructured" ].

(** the record of a listing for a name that is registered or not, enabled
    or not, when every registered converter is available *)
Definition listing (registered enabled : bool) (name : string) : PyVal :=
  PyDict [ ("name", PyStr name);
           ("available", PyBool registered);
           ("error", if registered then PyNone else PyStr "Unavailable");
           ("enabled", PyBool enabled) ].

(** the command line [_convert_sync] runs *)
Definition mineru_cmd (w : World) (file_path : string) : list string :=
  [ "mineru"; "-p"; fs_resolve w file_path;
    "-o"; path_join (mkdtemp w) "mineru_out"; "-b"; "pipeline" ].

(** the two files [_convert_sync] looks for first *)
Definition mineru_nested_md (w : World) (file_path : string) : string :=
  let stem := path_stem w (fs_resolve w file_path) in
  path_join (path_join (path_join (mkdtemp w) "mineru_out") stem) (stem +:+ ".md").

Definition mineru_flat_md (w : World) (file_path : string) : string :=
  let stem := path_stem w (fs_resolve w file_path) in
  path_join (path_join (mkdtemp w) "mineru_out") (stem +:+ ".md").

(** [result.stderr or result.stdout or f"Exit code {result.returncode}"] *)
Definition mineru_cli_error (result : CompletedProcess) : string :=
  if truthy_str (stderr result) then stderr result
  else if truthy_str (stdout result) then stdout result
  else "Exit code " +:+ repr_int (returncode result).

(** how [convert_to_md] ends, given how the work inside its [try] ended *)
Definition mineru_wrap (r : Result string) : Result string :=
  match r with
  | Ok content => Ok content
  | Raise e => Raise (RuntimeError ("MinerU conversion failed: " +:+ str_exc e))
  end.

(** [p.read_text()] once the command has run, as a result *)
Definition mineru_read_text (w : World) (file_path p : string) : Result string :=
  snd (MinerUConverter.read_text_after (mineru_cmd w file_path) p w).

(* ===================================================================== *)
(** ** Concrete worlds, used to run the definitions *)
(* ===================================================================== *)

(** A backend that is installed or not, and that fails on the files whose
    path is listed in [broken]. *)
Definition example_converter (name : string) (available : bool)
    (broken : list string) : PDFConverter.t :=
  let outcome (shape : string -> PyVal) (file_path : string) : Run PyVal :=
    if bool_decide (file_path ∈ broken)
    then ([], Raise (RuntimeError ("cannot parse " +:+ file_path)))
    else ([], Ok (shape file_path)) in
  {| PDFConverter.name := name;
     PDFConverter.available := available;
     PDFConverter.error_message :=
       HasAttribute (if available then None else Some "Dependencies not installed");
     PDFConverter.supports_format := fun _ => true;
     PDFConverter.convert_to_md := outcome (fun p => PyStr ("# " +:+ p));
     PDFConverter.convert_to_json :=
       outcome (fun p => PyDict [("content", PyStr ("# " +:+ p)); ("pages", PyInt 1)]);
     PDFConverter.convert_to_text := outcome (fun p => PyStr p) |}.

Definition example_chunker_factory : ChunkerFactory.t :=
  {| ChunkerFactory.list_available_chunkers := ["token"; "sentence"];
     ChunkerFactory.get_default_chunker := Some {| chunker_name := "token" |};
     ChunkerFactory.chunk_with_result := fun chunker text kwargs =>
       Ok {| to_dict := PyDict [ ("chunks", PyList [PyStr text]);
                                 ("chunker_name", PyStr chunker);
                                 ("total_chunks", PyInt 1) ] |} |}.

(** A working directory with [sample.pdf], a directory [pdfs] of five files
    and an empty directory [empty]; [pdfs/c.pdf] is a file the backends fail
    on.  The database answer and whether the backends are installed vary. *)
Definition example_world (db : Result (list string)) (installed : bool) : World :=
  let broken := ["pdfs/c.pdf"] in
  {| fs_exists := fun p =>
       bool_decide (p ∈ ["sample.pdf"; "pdfs"; "empty"; "pdfs/a.pdf"; "pdfs/b.pdf";
                         "pdfs/c.pdf"; "pdfs/d.pdf"; "pdfs/e.pdf"]);
     fs_glob_pdf := fun dir =>
       if String.eqb dir "pdfs" then
         map (fun n => {| entry_name := n; entry_path := path_join "pdfs" n |})
           ["d.pdf"; "a.pdf"; "e.pdf"; "c.pdf"; "b.pdf"]
       else [];
     fs_resolve := fun p => p;
     db_get_enabled_libraries := db;
     repr_set := fun s =>
       if bool_decide (size s = 0) then "set()"
       else "{" +:+ join ", " (map repr_str (elements s)) +:+ "}";
     PyMuPDF4LLMConverter := example_converter "pymupdf4llm" installed broken;
     MarkItDownConverter := example_converter "markitdown" installed broken;
     MarkerConverter := example_converter "marker" installed broken;
     DoclingConverter := example_converter "docling" installed broken;
     PaddleOCRConverter := example_converter "paddleocr" installed broken;
     DeepSeekOCRTransformersConverter := example_converter "deepseekocr" installed broken;
     PyTesseractConverter := example_converter "pytesseract" installed broken;
     UnstructuredConverter := example_converter "unstructured" installed broken;
     get_chunker_factory := example_chunker_factory;
     MINERU_AVAILABLE := installed;
     base_supports_format := fun _ => true;
     mkdtemp := "/tmp/tmpk3v9";
     subprocess_run := fun cmd =>
       Ok {| returncode := 1; stdout := ""; stderr := "layout model missing" |};
     after_run_read_text := fun cmd p => None;
     after_run_rglob_md := fun cmd dir => [];
     path_stem := fun p => "sample";
     re_sub_markdown := fun s => s |}.

(** the database enables two backends *)
Definition world_configured : World :=
  example_world (Ok ["pymupdf4llm"; "marker"]) true.

(** the table of enabled libraries is empty *)
Definition world_unconfigured : World := example_world (Ok []) true.

(** the database cannot be opened *)
Definition world_db_down : World :=
  example_world
    (Raise (OtherError "OperationalError" "unable to open database file")) true.

(** the registry a factory holds once it is built in a world *)
Definition built_factory (w : World) : OCRFactory.t :=
  match snd (OCRFactory.__init__ w) with
  | Ok factory => factory
  | Raise _ => {| OCRFactory._converters := [] |}
  end.

Definition example_api : PDFStract.t :=
  PDFStract.over (built_factory world_configured).

(** a facade whose registry holds the MinerU backend *)
Definition mineru_factory : OCRFactory.t :=
  {| OCRFactory._converters :=
       [("mineru",
         MinerUConverter.as_PDFConverter world_configured
           MinerUConverter.__init__)] |}.

Definition mineru_api : PDFStract.t := PDFStract.over mineru_factory.

(** [world_configured] with another MinerU installation: whether the CLI
    is there, how a run of it ends, the files it leaves and the markdown
    files a search of the output directory finds. *)
Definition mineru_world (installed : bool) (run : Result CompletedProcess)
    (files : list (string * Result string)) (found : list string) : World :=
  let w := world_configured in
  {| fs_exists := fs_exists w;
     fs_glob_pdf := fs_glob_pdf w;
     fs_resolve := fs_resolve w;
     db_get_enabled_libraries := db_get_enabled_libraries w;
     repr_set := repr_set w;
     PyMuPDF4LLMConverter := PyMuPDF4LLMConverter w;
     MarkItDownConverter := MarkItDownConverter w;
     MarkerConverter := MarkerConverter w;
     DoclingConverter := DoclingConverter w;
     PaddleOCRConverter := PaddleOCRConverter w;
     DeepSeekOCRTransformersConverter := DeepSeekOCRTransformersConverter w;
     PyTesseractConverter := PyTesseractConverter w;
     UnstructuredConverter := UnstructuredConverter w;
     get_chunker_factory := get_chunker_factory w;
     MINERU_AVAILABLE := installed;
     base_supports_format := base_supports_format w;
     mkdtemp := mkdtemp w;
     subprocess_run := fun _ => run;
     after_run_read_text := fun _ p => dict_get p files;
     after_run_rglob_md := fun _ _ => found;
     path_stem := path_stem w;
     re_sub_markdown := re_sub_markdown w |}.

(** a backend that produces markdown only, and a factory that holds it *)
Definition markdown_only_converter : PDFConverter.t :=
  {| PDFConverter.name := "markitdown";
     PDFConverter.available := true;
     PDFConverter.error_message := HasAttribute None;
     PDFConverter.supports_format := fun fmt => OutputFormat_eqb fmt MARKDOWN;
     PDFConverter.convert_to_md := fun p => ([], Ok (PyStr ("# " +:+ p)));
     PDFConverter.convert_to_json := fun p => ([], Ok (PyDict []));
     PDFConverter.convert_to_text := fun p => ([], Ok (PyStr p)) |}.

Definition markdown_only_factory : OCRFactory.t :=
  {| OCRFactory._converters := [("markitdown", markdown_only_converter)] |}.

(** a backend that finds no text in any file, and a facade over it *)
Definition blank_converter : PDFConverter.t :=
  {| PDFConverter.name := "pytesseract";
     PDFConverter.available := true;
     PDFConverter.error_message := HasAttribute None;
     PDFConverter.supports_format := fun _ => true;
     PDFConverter.convert_to_md := fun p => ([], Ok (PyStr (String "010" " ")));
     PDFConverter.convert_to_json := fun p => ([], Ok (PyDict []));
     PDFConverter.convert_to_text := fun p => ([], Ok (PyStr "")) |}.

Definition blank_api : PDFStract.t :=
  PDFStract.over {| OCRFactory._converters := [("pytesseract", blank_converter)] |}.

(** a run of the CLI that exits with 0 and writes nothing to its streams *)
Definition mineru_ok : Result CompletedProcess :=
  Ok {| returncode := 0; stdout := ""; stderr := "" |}.

(** a table of three libraries, one of them disabled *)
Definition example_table : DatabaseService.t :=
  DatabaseService.Opened [("pymupdf4llm", 1%Z); ("docling", 0%Z); ("marker", 1%Z)].

(* ===================================================================== *)
(** * Properties *)
(* ===================================================================== *)

(** Unfolds the monad and the primitives, so that a run reads as a pair. *)
Ltac run_unfold :=
  unfold await, asyncio_run, MinerUConverter.to_thread, Path_exists,
    Path_glob_pdf, logger_info, logger_warning, logger_error,
    db_service_get_enabled_libraries, load_local, lift_result, lift_run,
    try_except, bind, tell, ask, ret, raise in *.

(** ** The registry *)

Lemma try_load_enabled_libraries_ok (w : World) (libs : list string) :
  db_get_enabled_libraries w = Ok libs ->
  try_load_enabled_libraries w = ([EvDbQuery], Ok (Some (list_to_set libs))).
Proof.
  intros Hdb. unfold try_load_enabled_libraries. run_unfold. simpl.
  rewrite Hdb. reflexivity.
Qed.

Lemma try_load_enabled_libraries_raise (w : World) (e : PyExc) :
  db_get_enabled_libraries w = Raise e ->
  try_load_enabled_libraries w =
    ([EvDbQuery;
      EvLog ERROR ("Failed to load enabled libraries from DB: " +:+ str_exc e)],
     Ok None).
Proof.
  intros Hdb. unfold try_load_enabled_libraries. run_unfold. simpl.
  rewrite Hdb. reflexivity.
Qed.

(** With an empty table of enabled libraries the build returns at the
    warning and leaves the registry as it found it. *)
Lemma register_default_converters_empty (w : World) (self : OCRFactory.t) :
  db_get_enabled_libraries w = Ok [] ->
  snd (OCRFactory._register_default_converters self w) = Ok (self, Ok tt).
Proof.
  intros Hdb. unfold OCRFactory._register_default_converters.
  unfold bind at 1. rewrite (try_load_enabled_libraries_ok w [] Hdb).
  run_unfold. reflexivity.
Qed.

(** [get_converter] is the lookup in the registry. *)
Lemma get_converter_run (self : OCRFactory.t) (name : string) (w : World) :
  OCRFactory.get_converter self name w =
    ([EvGetConverter name], Ok (dict_get name (OCRFactory._converters self))).
Proof. reflexivity. Qed.

(** C1.  Specified: built with an empty enabled set, the registry exposes
    every backend kind whose availability predicate holds.  The code logs
    that it is registering all converters and returns before it registers
    any: in a world where the table of enabled libraries is empty and all
    eight backends are installed, the registry that is built is empty and no
    backend can be resolved by name. *)
Theorem C1_empty_enabled_set_registers_nothing :
  db_get_enabled_libraries world_unconfigured = Ok []
  /\ Forall (fun c => PDFConverter.available c = true)
       (OCRFactory.all_converters world_unconfigured)
  /\ OCRFactory.__init__ world_unconfigured =
       ([EvDbQuery;
         EvLog INFO "Loading enabled libraries: set()";
         EvLog WARNING "No enabled libraries found in DB. Registering all converters."],
        Ok {| OCRFactory._converters := [] |})
  /\ snd (OCRFactory.list_available_converters
            (built_factory world_unconfigured) world_unconfigured) = Ok []
  /\ Forall (fun c =>
       snd (OCRFactory.get_converter (built_factory world_unconfigured)
              (PDFConverter.name c) world_unconfigured) = Ok None)
       (OCRFactory.all_converters world_unconfigured).
Proof.
  split; [reflexivity|].
  split; [repeat constructor|].
  split; [vm_compute; reflexivity|].
  split; [vm_compute; reflexivity|].
  repeat constructor.
Qed.

(** C10.  When the enablement source raises, the handler only logs, the
    local [enabled_libraries] stays unbound, and the next read of it raises
    [UnboundLocalError]: the build raises and registers nothing (a fresh
    factory is not created, a refreshed one is left with an empty registry),
    and so does the listing. *)
Theorem C10_enablement_source_raises (w : World) (self : OCRFactory.t) (e : PyExc) :
  db_get_enabled_libraries w = Raise e ->
  let unbound := UnboundLocalError "enabled_libraries" in
  outcome (OCRFactory._register_default_converters self w) = Raise unbound
  /\ object_after self (OCRFactory._register_default_converters self w) = self
  /\ snd (OCRFactory.__init__ w) = Raise unbound
  /\ outcome (OCRFactory.refresh_converters self w) = Raise unbound
  /\ OCRFactory._converters
       (object_after self (OCRFactory.refresh_converters self w)) = []
  /\ snd (OCRFactory.list_all_converters self w) = Raise unbound.
Proof.
  intros Hdb unbound.
  assert (Hreg : forall s : OCRFactory.t,
             snd (OCRFactory._register_default_converters s w)
             = Ok (s, Raise unbound)).
  { intros s. unfold OCRFactory._register_default_converters.
    unfold bind at 1. rewrite (try_load_enabled_libraries_raise w e Hdb).
    reflexivity. }
  assert (Hinit : snd (OCRFactory.__init__ w) = Raise unbound).
  { unfold OCRFactory.__init__, bind.
    pose proof (Hreg {| OCRFactory._converters := [] |}) as H0.
    destruct (OCRFactory._register_default_converters _ w) as [t0 r0].
    simpl in H0. subst r0. reflexivity. }
  unfold outcome, object_after, OCRFactory.refresh_converters.
  rewrite !Hreg. repeat split; try reflexivity; try exact Hinit.
  unfold OCRFactory.list_all_converters. unfold bind at 1.
  rewrite (try_load_enabled_libraries_raise w e Hdb). reflexivity.
Qed.

(** C10 in a world whose database cannot be opened, on a factory that held
    two backends. *)
Lemma C10_enablement_source_raises_witness :
  let unbound := UnboundLocalError "enabled_libraries" in
  outcome (OCRFactory._register_default_converters
             (built_factory world_configured) world_db_down) = Raise unbound
  /\ object_after (built_factory world_configured)
       (OCRFactory._register_default_converters
          (built_factory world_configured) world_db_down)
     = built_factory world_configured
  /\ snd (OCRFactory.__init__ world_db_down) = Raise unbound
  /\ outcome (OCRFactory.refresh_converters
                (built_factory world_configured) world_db_down) = Raise unbound
  /\ OCRFactory._converters
       (object_after (built_factory world_configured)
          (OCRFactory.refresh_converters
             (built_factory world_configured) world_db_down)) = []
  /\ snd (OCRFactory.list_all_converters
            (built_factory world_configured) world_db_down) = Raise unbound.
Proof.
  apply (C10_enablement_source_raises world_db_down
           (built_factory world_configured)
           (OtherError "OperationalError" "unable to open database file")).
  reflexivity.
Defined.

(** ** Single conversions: the order of the checks *)

(** The synchronous entry point resolves the backend before it looks at the
    file: an unknown backend is reported whatever the file is. *)
Lemma convert_backend_not_found
    (w : World) (factory : OCRFactory.t) (pdf_path library output_format : string) :
  dict_get library (OCRFactory._converters factory) = None ->
  PDFStract.convert (PDFStract.over factory) pdf_path library output_format w =
    ([EvGetConverter library],
     Raise (BackendNotFound library (dict_keys (OCRFactory._converters factory)))).
Proof.
  intros Hget. unfold PDFStract.convert. cbn [PDFStract.over PDFStract._factory
    OCRFactory.as_factory ConverterFactory.get_converter].
  unfold bind at 1. rewrite get_converter_run, Hget. reflexivity.
Qed.

Lemma convert_input_not_found
    (w : World) (factory : OCRFactory.t) (pdf_path library output_format : string)
    (converter : PDFConverter.t) :
  dict_get library (OCRFactory._converters factory) = Some converter ->
  fs_exists w pdf_path = false ->
  PDFStract.convert (PDFStract.over factory) pdf_path library output_format w =
    ([EvGetConverter library; EvPathExists pdf_path],
     Raise (InputNotFound pdf_path)).
Proof.
  intros Hget Hex. unfold PDFStract.convert. cbn [PDFStract.over PDFStract._factory
    OCRFactory.as_factory ConverterFactory.get_converter].
  unfold bind at 1. rewrite get_converter_run, Hget.
  run_unfold. simpl. rewrite Hex. reflexivity.
Qed.

(** The asynchronous entry point looks at the file first: a missing file is
    reported whatever the backend and the factory are, and no method of the
    factory is called. *)
Lemma convert_async_input_not_found
    (w : World) (self : PDFStract.t) (pdf_path library output_format : string) :
  fs_exists w pdf_path = false ->
  PDFStract.convert_async self pdf_path library output_format w =
    ([EvPathExists pdf_path], Raise (InputNotFound pdf_path)).
Proof.
  intros Hex. unfold PDFStract.convert_async. run_unfold. simpl.
  rewrite Hex. reflexivity.
Qed.

Lemma convert_async_backend_not_found
    (w : World) (factory : OCRFactory.t) (pdf_path library output_format : string) :
  fs_exists w pdf_path = true ->
  dict_get library (OCRFactory._converters factory) = None ->
  PDFStract.convert_async (PDFStract.over factory) pdf_path library output_format w =
    ([EvPathExists pdf_path; EvGetConverter library],
     Raise (BackendNotFound library (dict_keys (OCRFactory._converters factory)))).
Proof.
  intros Hex Hget. unfold PDFStract.convert_async, OCRFactory.get_converter.
  run_unfold. simpl. rewrite Hex. simpl. rewrite Hget. reflexivity.
Qed.

(** In the factory the synchronous method is the asynchronous one, run to
    completion. *)
Lemma factory_convert_runs_convert_async
    (factory : OCRFactory.t) (converter_name file_path : string) (fmt : OutputFormat) :
  OCRFactory.convert factory converter_name file_path fmt
    = asyncio_run (OCRFactory.convert_async factory converter_name file_path fmt).
Proof. reflexivity. Qed.

(** Once both checks pass, the two entry points run the same conversion and
    wrap its failure the same way. *)
Lemma convert_checked
    (w : World) (factory : OCRFactory.t) (pdf_path library output_format : string)
    (converter : PDFConverter.t) :
  dict_get library (OCRFactory._converters factory) = Some converter ->
  fs_exists w pdf_path = true ->
  let guarded :=
    try_except
      (fmt <- lift_result (OutputFormat_call output_format) ;;
       OCRFactory.convert_async factory library pdf_path fmt)
      (fun e => raise (ConversionFailed e)) w in
  PDFStract.convert (PDFStract.over factory) pdf_path library output_format w =
    ([EvGetConverter library; EvPathExists pdf_path] ++ fst guarded, snd guarded)
  /\ PDFStract.convert_async (PDFStract.over factory) pdf_path library output_format w =
    ([EvPathExists pdf_path; EvGetConverter library] ++ fst guarded, snd guarded).
Proof.
  intros Hget Hex guarded. subst guarded.
  unfold PDFStract.convert, PDFStract.convert_async, ConversionFailed.
  cbn [PDFStract.over PDFStract._factory OCRFactory.as_factory
       ConverterFactory.get_converter ConverterFactory.convert
       ConverterFactory.convert_async].
  unfold OCRFactory.convert.
  split.
  - unfold bind at 1. rewrite get_converter_run, Hget.
    unfold bind at 1. unfold Path_exists at 1. run_unfold. simpl. rewrite Hex. simpl.
    destruct (OutputFormat_call output_format) as [fmt|e0]; simpl.
    + destruct (OCRFactory.convert_async _ _ _ fmt w) as [t [v|e1]];
        simpl; rewrite ?app_nil_r; reflexivity.
    + reflexivity.
  - unfold bind at 1. unfold Path_exists at 1. run_unfold. simpl. rewrite Hex. simpl.
    rewrite Hget.
    destruct (OutputFormat_call output_format) as [fmt|e0]; simpl.
    + destruct (OCRFactory.convert_async _ _ _ fmt w) as [t [v|e1]];
        simpl; rewrite ?app_nil_r; reflexivity.
    + reflexivity.
Qed.

(** The two entry points end the same way on every call except the one
    where the backend is unknown and the file is missing as well. *)
Lemma convert_agrees_with_convert_async
    (w : World) (factory : OCRFactory.t) (pdf_path library output_format : string) :
  fs_exists w pdf_path = true
  \/ is_Some (dict_get library (OCRFactory._converters factory)) ->
  snd (PDFStract.convert (PDFStract.over factory) pdf_path library output_format w) =
  snd (asyncio_run
         (PDFStract.convert_async (PDFStract.over factory) pdf_path library
            output_format) w).
Proof.
  intros Hcase. unfold asyncio_run.
  destruct (dict_get library (OCRFactory._converters factory))
    as [converter|] eqn:Hget;
    destruct (fs_exists w pdf_path) eqn:Hex.
  - destruct (convert_checked w factory pdf_path library output_format converter Hget Hex)
      as [Hs Ha].
    rewrite Hs, Ha. reflexivity.
  - rewrite (convert_input_not_found w factory pdf_path library output_format converter
               Hget Hex).
    rewrite (convert_async_input_not_found w _ pdf_path library output_format Hex).
    reflexivity.
  - rewrite (convert_backend_not_found w factory pdf_path library output_format Hget).
    rewrite (convert_async_backend_not_found w factory pdf_path library output_format
               Hex Hget).
    reflexivity.
  - destruct Hcase as [Hc|[c Hc]]; discriminate.
Qed.

(** C2.  Specified: the synchronous and the asynchronous conversion entry
    points end the same way on every input.  They do not when the backend is
    unknown and the file is missing: [convert] resolves the backend first
    and reports it, [convert_async] checks the file first and reports that.
    (On every other call they agree: [convert_agrees_with_convert_async].) *)
Theorem C2_convert_and_convert_async_differ :
  snd (PDFStract.convert example_api "missing.pdf" "nonexistent_library"
         "markdown" world_configured)
    = Raise (BackendNotFound "nonexistent_library" ["pymupdf4llm"; "marker"])
  /\ snd (asyncio_run
            (PDFStract.convert_async example_api "missing.pdf"
               "nonexistent_library" "markdown") world_configured)
    = Raise (InputNotFound "missing.pdf")
  /\ snd (PDFStract.convert example_api "missing.pdf" "nonexistent_library"
            "markdown" world_configured)
     <> snd (asyncio_run
               (PDFStract.convert_async example_api "missing.pdf"
                  "nonexistent_library" "markdown") world_configured).
Proof.
  split; [vm_compute; reflexivity|].
  split; [vm_compute; reflexivity|].
  vm_compute. discriminate.
Qed.

(** C3.  Specified: with an unknown backend and a missing file, both entry
    points report the backend.  [convert_async] tests the file before it
    resolves the backend, so it reports the missing file and never reaches
    the registry; [convert] reports the backend. *)
Theorem C3_convert_async_checks_file_first :
  fs_exists world_configured "missing.pdf" = false
  /\ dict_get "nonexistent_library"
       (OCRFactory._converters (built_factory world_configured)) = None
  /\ PDFStract.convert_async example_api "missing.pdf" "nonexistent_library"
       "markdown" world_configured
     = ([EvPathExists "missing.pdf"],
        Raise (FileNotFoundError "PDF file not found: missing.pdf"))
  /\ PDFStract.convert example_api "missing.pdf" "nonexistent_library"
       "markdown" world_configured
     = ([EvGetConverter "nonexistent_library"],
        Raise (ValueError
                 "Library 'nonexistent_library' not available. Available: ['pymupdf4llm', 'marker']")).
Proof.
  split; [reflexivity|].
  split; [vm_compute; reflexivity|].
  split; vm_compute; reflexivity.
Qed.

(** ** Single conversions: failures of the backend *)

Lemma string_length_append (a b : string) :
  String.length (a +:+ b) = String.length a + String.length b.
Proof. induction a as [|c a IH]; simpl; [reflexivity | rewrite IH; reflexivity]. Qed.

(** A wrapped exception is never the exception it wraps. *)
Lemma ConversionFailed_fresh (e : PyExc) : ConversionFailed e <> e.
Proof.
  unfold ConversionFailed. destruct e as [m|m|m|v|c m]; try discriminate.
  simpl. intros H. injection H as H.
  apply (f_equal String.length) in H. rewrite string_length_append in H.
  simpl in H. lia.
Qed.

(** The factory hands the call to the capability method the format selects
    and returns or raises whatever that method does. *)
Lemma factory_convert_async_dispatch
    (w : World) (factory : OCRFactory.t) (converter_name file_path : string)
    (fmt : OutputFormat) (converter : PDFConverter.t) :
  dict_get converter_name (OCRFactory._converters factory) = Some converter ->
  PDFConverter.supports_format converter fmt = true ->
  OCRFactory.convert_async factory converter_name file_path fmt w =
    ([EvGetConverter converter_name;
      EvBackend (PDFConverter.name converter) fmt file_path]
       ++ fst (capability converter fmt file_path),
     snd (capability converter fmt file_path)).
Proof.
  intros Hget Hsup. unfold OCRFactory.convert_async. unfold bind at 1.
  rewrite get_converter_run, Hget, Hsup. simpl.
  destruct fmt; simpl; run_unfold; simpl;
    match goal with
    | |- context [?f converter file_path] =>
        destruct (f converter file_path) as [t [v|e]]; reflexivity
    end.
Qed.

(** C6.  When the capability method the call is dispatched to raises [e],
    both entry points raise [ConversionFailed e]: a [ValueError] made at the
    facade, whose message is "Conversion failed: " followed by the message
    of [e], and which is never [e] itself. *)
Theorem C6_backend_failure_is_wrapped
    (w : World) (factory : OCRFactory.t) (pdf_path library output_format : string)
    (fmt : OutputFormat) (converter : PDFConverter.t)
    (t : list Event) (e : PyExc) :
  dict_get library (OCRFactory._converters factory) = Some converter ->
  fs_exists w pdf_path = true ->
  OutputFormat_call output_format = Ok fmt ->
  PDFConverter.supports_format converter fmt = true ->
  capability converter fmt pdf_path = (t, Raise e) ->
  snd (PDFStract.convert (PDFStract.over factory) pdf_path library output_format w)
    = Raise (ConversionFailed e)
  /\ snd (asyncio_run
            (PDFStract.convert_async (PDFStract.over factory) pdf_path library
               output_format) w)
    = Raise (ConversionFailed e)
  /\ exc_class (ConversionFailed e) = "ValueError"
  /\ str_exc (ConversionFailed e) = "Conversion failed: " +:+ str_exc e
  /\ ConversionFailed e <> e.
Proof.
  intros Hget Hex Hfmt Hsup Hcap.
  destruct (convert_checked w factory pdf_path library output_format converter Hget Hex)
    as [Hs Ha].
  assert (Hguard :
    snd (try_except
           (fmt0 <- lift_result (OutputFormat_call output_format) ;;
            OCRFactory.convert_async factory library pdf_path fmt0)
           (fun e0 => raise (ConversionFailed e0)) w)
    = Raise (ConversionFailed e)).
  { unfold try_except, bind, lift_result. rewrite Hfmt.
    rewrite (factory_convert_async_dispatch w _ library pdf_path fmt converter Hget Hsup).
    rewrite Hcap. reflexivity. }
  unfold asyncio_run. rewrite Hs, Ha. simpl.
  repeat split; try exact Hguard; try reflexivity.
  apply ConversionFailed_fresh.
Qed.

(** [MinerUConverter.convert_to_md] wraps whatever its CLI run raises. *)
Lemma mineru_convert_to_md_wraps
    (w : World) (self : MinerUConverter.t) (file_path : string)
    (t : list Event) (e : PyExc) :
  MINERU_AVAILABLE w = true ->
  MinerUConverter._convert_sync self file_path "markdown" w = (t, Raise e) ->
  MinerUConverter.convert_to_md self file_path w =
    (t ++ [EvLog ERROR ("MinerU: Conversion failed: " +:+ str_exc e)],
     Raise (RuntimeError ("MinerU conversion failed: " +:+ str_exc e))).
Proof.
  intros Hav Hsync. unfold MinerUConverter.convert_to_md, MinerUConverter.available.
  run_unfold. simpl. rewrite Hav. simpl. rewrite Hsync. reflexivity.
Qed.

(** C6 on the MinerU backend, whose CLI exits with an error. *)
Lemma C6_backend_failure_is_wrapped_witness :
  let e := RuntimeError
             "MinerU conversion failed: MinerU CLI failed: layout model missing" in
  snd (PDFStract.convert mineru_api "sample.pdf" "mineru" "markdown" world_configured)
    = Raise (ConversionFailed e)
  /\ snd (asyncio_run
            (PDFStract.convert_async mineru_api "sample.pdf" "mineru" "markdown")
            world_configured)
    = Raise (ConversionFailed e)
  /\ exc_class (ConversionFailed e) = "ValueError"
  /\ str_exc (ConversionFailed e) = "Conversion failed: " +:+ str_exc e
  /\ ConversionFailed e <> e.
Proof.
  intros e.
  apply (C6_backend_failure_is_wrapped world_configured mineru_factory
           "sample.pdf" "mineru" "markdown" MARKDOWN
           (MinerUConverter.as_PDFConverter world_configured MinerUConverter.__init__)
           (fst (MinerUConverter.convert_to_md MinerUConverter.__init__
                   "sample.pdf" world_configured))
           e);
    vm_compute; reflexivity.
Defined.

(** ** Batches *)

(** C5.  A batch over a directory with no PDF file returns the empty
    aggregate once it has listed the directory; the run asks the file system
    two questions and never consults the registry, whatever the name of the
    backend. *)
Theorem C5_empty_batch_short_circuits
    (w : World) (self : PDFStract.t) (pdf_directory library output_format : string)
    (parallel_workers : Z) :
  fs_exists w pdf_directory = true ->
  fs_glob_pdf w pdf_directory = [] ->
  PDFStract.batch_convert self pdf_directory library output_format parallel_workers w
    = ([EvPathExists pdf_directory; EvGlob pdf_directory],
       Ok {| success := 0; failed := 0; results := ∅ |})
  /\ forall name : string,
       ~ In (EvGetConverter name)
           (fst (PDFStract.batch_convert self pdf_directory library output_format
                   parallel_workers w)).
Proof.
  intros Hex Hglob.
  assert (Hrun :
    PDFStract.batch_convert self pdf_directory library output_format parallel_workers w
    = ([EvPathExists pdf_directory; EvGlob pdf_directory],
       Ok {| success := 0; failed := 0; results := ∅ |})).
  { unfold PDFStract.batch_convert. run_unfold. simpl. rewrite Hex. simpl.
    rewrite Hglob. reflexivity. }
  split; [exact Hrun|].
  intros name Hin. rewrite Hrun in Hin. simpl in Hin.
  destruct Hin as [H|[H|[]]]; discriminate.
Qed.

(** C5 on the empty directory, with a backend name nobody registered. *)
Lemma C5_empty_batch_short_circuits_witness :
  PDFStract.batch_convert example_api "empty" "anyBackend" "markdown" 4 world_configured
    = ([EvPathExists "empty"; EvGlob "empty"],
       Ok {| success := 0; failed := 0; results := ∅ |})
  /\ forall name : string,
       ~ In (EvGetConverter name)
           (fst (PDFStract.batch_convert example_api "empty" "anyBackend" "markdown"
                   4 world_configured)).
Proof.
  apply (C5_empty_batch_short_circuits world_configured example_api
           "empty" "anyBackend" "markdown" 4); reflexivity.
Defined.

Lemma insert_sorted_Permutation (e : DirEntry) (l : list DirEntry) :
  Permutation (insert_sorted e l) (e :: l).
Proof.
  induction l as [|x l IH]; simpl.
  - reflexivity.
  - destruct (String.leb (entry_name e) (entry_name x)).
    + reflexivity.
    + rewrite IH. apply perm_swap.
Qed.

(** [sorted] lists the same files, in another order. *)
Lemma sorted_Permutation (l : list DirEntry) : Permutation (sorted l) l.
Proof.
  induction l as [|x l IH]; simpl.
  - reflexivity.
  - rewrite insert_sorted_Permutation, IH. reflexivity.
Qed.

Lemma filter_length_Permutation {A : Type} (p : A -> bool) (l l' : list A) :
  Permutation l l' -> length (List.filter p l) = length (List.filter p l').
Proof.
  induction 1 as [|x l l' _ IH|x y l|l l' l'' _ IH1 _ IH2]; simpl.
  - reflexivity.
  - destruct (p x); simpl; rewrite IH; reflexivity.
  - destruct (p x), (p y); reflexivity.
  - rewrite IH1. exact IH2.
Qed.

(** The helper never raises: it turns the end of a conversion into a tuple. *)
Lemma convert_pdf_run
    (w : World) (self : PDFStract.t) (library : string) (fmt : OutputFormat)
    (pdf_file : DirEntry) :
  snd (PDFStract.convert_pdf self library fmt pdf_file w) =
    Ok (item_outcome (entry_name pdf_file)
          (snd (ConverterFactory.convert (PDFStract._factory self) library
                  (entry_path pdf_file) fmt w))).
Proof.
  unfold PDFStract.convert_pdf, try_except, bind, ret.
  destruct (ConverterFactory.convert _ _ _ _ w) as [t [v|e]]; reflexivity.
Qed.

Lemma list_comp_total {A B : Type} (f : A -> M B) (g : A -> B) (w : World)
    (l : list A) :
  (forall x, snd (f x w) = Ok (g x)) ->
  snd (list_comp f l w) = Ok (map g l).
Proof.
  intros Hf. induction l as [|x l IH]; simpl.
  - reflexivity.
  - unfold bind. specialize (Hf x).
    destruct (f x w) as [t r]. simpl in Hf. subst r.
    destruct (list_comp f l w) as [t' r']. simpl in IH. subst r'.
    reflexivity.
Qed.

(** One turn of the loop: exactly one counter goes up, and the entry of the
    file is set from the end of its own conversion. *)
Lemma collect_item_outcome (acc : BatchResult) (filename : string) (r : Result PyVal) :
  collect acc (item_outcome filename r) =
    {| success := success acc + (if is_raise r then 0 else 1);
       failed := failed acc + (if is_raise r then 1 else 0);
       results := <[filename := entry_of r]> (results acc) |}.
Proof.
  destruct acc as [s f m]. destruct r as [v|e]; simpl.
  - rewrite Nat.add_0_r. reflexivity.
  - rewrite Nat.add_0_r. reflexivity.
Qed.

Section Aggregate.
(** how the conversion of each file ended *)
Variable run_item : DirEntry -> Result PyVal.

Lemma aggregate_counts (files : list DirEntry) (acc : BatchResult) :
  success (aggregate run_item files acc) + failed (aggregate run_item files acc)
    = success acc + failed acc + length files
  /\ failed (aggregate run_item files acc)
    = failed acc + length (List.filter (fun f => is_raise (run_item f)) files).
Proof.
  revert acc. induction files as [|f files IH]; intros acc; unfold aggregate; simpl.
  - lia.
  - rewrite collect_item_outcome.
    destruct (IH {| success := success acc + (if is_raise (run_item f) then 0 else 1);
                    failed := failed acc + (if is_raise (run_item f) then 1 else 0);
                    results := <[entry_name f := entry_of (run_item f)]> (results acc) |})
      as [IH1 IH2].
    unfold aggregate in IH1, IH2. rewrite IH1, IH2. simpl.
    destruct (is_raise (run_item f)); simpl; lia.
Qed.

Lemma aggregate_lookup_other (files : list DirEntry) (acc : BatchResult) (k : string) :
  k ∉ entry_name <$> files ->
  results (aggregate run_item files acc) !! k = results acc !! k.
Proof.
  revert acc. induction files as [|f files IH]; intros acc Hk; unfold aggregate; simpl.
  - reflexivity.
  - rewrite collect_item_outcome. rewrite fmap_cons in Hk.
    apply not_elem_of_cons in Hk as [Hne Hk].
    pose proof (IH {| success := success acc + (if is_raise (run_item f) then 0 else 1);
                      failed := failed acc + (if is_raise (run_item f) then 1 else 0);
                      results := <[entry_name f := entry_of (run_item f)]> (results acc) |}
                   Hk) as IH'.
    unfold aggregate in IH'. rewrite IH'. simpl.
    apply lookup_insert_ne. congruence.
Qed.

Lemma aggregate_lookup (files : list DirEntry) (acc : BatchResult) (f : DirEntry) :
  NoDup (entry_name <$> files) ->
  f ∈ files ->
  results (aggregate run_item files acc) !! entry_name f = Some (entry_of (run_item f)).
Proof.
  revert acc. induction files as [|x files IH]; intros acc Hnd Hin.
  - inversion Hin.
  - rewrite fmap_cons in Hnd. apply NoDup_cons in Hnd as [Hx Hnd].
    unfold aggregate. simpl. rewrite collect_item_outcome.
    apply elem_of_cons in Hin as [->|Hin].
    + pose proof (aggregate_lookup_other files
                    {| success := success acc + (if is_raise (run_item x) then 0 else 1);
                       failed := failed acc + (if is_raise (run_item x) then 1 else 0);
                       results := <[entry_name x := entry_of (run_item x)]> (results acc) |}
                    (entry_name x) Hx) as Hother.
      unfold aggregate in Hother. rewrite Hother. simpl.
      apply lookup_insert_eq.
    + apply (IH _ Hnd Hin).
Qed.

Lemma aggregate_dom (files : list DirEntry) (acc : BatchResult) :
  dom (results (aggregate run_item files acc))
    = dom (results acc) ∪ list_to_set (entry_name <$> files).
Proof.
  revert acc. induction files as [|f files IH]; intros acc; unfold aggregate; simpl.
  - rewrite (right_id_L _ _). reflexivity.
  - rewrite collect_item_outcome.
    pose proof (IH {| success := success acc + (if is_raise (run_item f) then 0 else 1);
                      failed := failed acc + (if is_raise (run_item f) then 1 else 0);
                      results := <[entry_name f := entry_of (run_item f)]> (results acc) |})
      as IH'.
    unfold aggregate in IH'. rewrite IH'. simpl. rewrite dom_insert_L.
    rewrite (comm_L _ {[entry_name f]} (dom (results acc))).
    rewrite <- (assoc_L _). reflexivity.
Qed.
End Aggregate.

(** C4.  A batch over a directory that holds PDF files, with a backend the
    factory resolves, a format the enumeration has and a pool of at least
    one worker, returns an aggregate in
    which the two counters add up to the number of files, the failures are
    the files whose conversion raised, the mapping has one entry per file
    name and no other entry, and the entry of each file is set from the end
    of its own conversion alone: the content when it returned, the record
    with the key "error" and the message when it raised. *)
Theorem C4_batch_aggregate
    (w : World) (self : PDFStract.t) (pdf_directory library output_format : string)
    (parallel_workers : Z) (fmt : OutputFormat) (converter : PDFConverter.t) :
  (0 < parallel_workers)%Z ->
  fs_exists w pdf_directory = true ->
  fs_glob_pdf w pdf_directory <> [] ->
  NoDup (entry_name <$> fs_glob_pdf w pdf_directory) ->
  snd (ConverterFactory.get_converter (PDFStract._factory self) library w)
    = Ok (Some converter) ->
  OutputFormat_call output_format = Ok fmt ->
  let inputs := fs_glob_pdf w pdf_directory in
  let run_item := fun f : DirEntry =>
    snd (ConverterFactory.convert (PDFStract._factory self) library
           (entry_path f) fmt w) in
  exists agg : BatchResult,
    snd (PDFStract.batch_convert self pdf_directory library output_format
           parallel_workers w) = Ok agg
    /\ success agg + failed agg = length inputs
    /\ failed agg = length (List.filter (fun f => is_raise (run_item f)) inputs)
    /\ dom (results agg) = list_to_set (entry_name <$> inputs)
    /\ size (results agg) = length inputs
    /\ forall f : DirEntry,
         f ∈ inputs ->
         results agg !! entry_name f = Some (entry_of (run_item f)).
Proof.
  intros Hworkers Hex Hne Hnd Hget Hfmt inputs run_item.
  pose proof (sorted_Permutation inputs) as Hperm.
  set (init := {| success := 0; failed := 0; results := ∅ |}).
  exists (aggregate run_item (sorted inputs) init).
  assert (Hnd' : NoDup (entry_name <$> sorted inputs)).
  { rewrite Hperm. exact Hnd. }
  destruct (aggregate_counts run_item (sorted inputs) init) as [Hsum Hfailed].
  pose proof (aggregate_dom run_item (sorted inputs) init) as Hdom.
  assert (Hdom' : dom (results (aggregate run_item (sorted inputs) init))
                  = list_to_set (entry_name <$> inputs)).
  { rewrite Hdom. simpl. rewrite dom_empty_L, (left_id_L _ _).
    rewrite Hperm. reflexivity. }
  split; [|split; [|split; [|split; [|split]]]].
  - unfold PDFStract.batch_convert. run_unfold. simpl. rewrite Hex. simpl.
    fold inputs. destruct (sorted inputs) as [|f0 rest] eqn:Hsorted.
    + exfalso. apply Hne. apply Permutation_nil. exact Hperm.
    + destruct (ConverterFactory.get_converter (PDFStract._factory self) library w)
        as [tg rg].
      cbn [snd] in Hget. subst rg.
      rewrite Hfmt. unfold PDFStract.ThreadPoolExecutor.
      rewrite (proj2 (Z.leb_gt parallel_workers 0) Hworkers). run_unfold.
      pose proof (list_comp_total
                    (PDFStract.convert_pdf self library fmt)
                    (fun f => item_outcome (entry_name f) (run_item f)) w
                    (f0 :: rest)
                    (fun f => convert_pdf_run w self library fmt f)) as Hall.
      destruct (list_comp (PDFStract.convert_pdf self library fmt) (f0 :: rest) w)
        as [t r].
      cbn [snd] in Hall. subst r. reflexivity.
  - rewrite Hsum. simpl. rewrite Hperm. reflexivity.
  - rewrite Hfailed. simpl. apply filter_length_Permutation. exact Hperm.
  - exact Hdom'.
  - rewrite <- size_dom, Hdom'. rewrite size_list_to_set by exact Hnd.
    rewrite length_fmap. reflexivity.
  - intros f Hin. apply aggregate_lookup; [exact Hnd'|].
    rewrite Hperm. exact Hin.
Qed.

(** C4 on the directory of five files, one of which the backend fails on. *)
Lemma C4_batch_aggregate_witness :
  let inputs := fs_glob_pdf world_configured "pdfs" in
  let run_item := fun f : DirEntry =>
    snd (ConverterFactory.convert (PDFStract._factory example_api) "marker"
           (entry_path f) MARKDOWN world_configured) in
  exists agg : BatchResult,
    snd (PDFStract.batch_convert example_api "pdfs" "marker" "markdown" 4
           world_configured) = Ok agg
    /\ success agg + failed agg = length inputs
    /\ failed agg = length (List.filter (fun f => is_raise (run_item f)) inputs)
    /\ dom (results agg) = list_to_set (entry_name <$> inputs)
    /\ size (results agg) = length inputs
    /\ forall f : DirEntry,
         f ∈ inputs ->
         results agg !! entry_name f = Some (entry_of (run_item f)).
Proof.
  apply (C4_batch_aggregate world_configured example_api "pdfs" "marker" "markdown"
           4 MARKDOWN (example_converter "marker" true ["pdfs/c.pdf"])).
  - reflexivity.
  - reflexivity.
  - discriminate.
  - apply (bool_decide_unpack _). vm_compute. exact I.
  - vm_compute. reflexivity.
  - reflexivity.
Defined.

(** Five files, one failure: four successes, one failure, and the entry of
    the failed file is the record of its error. *)
Example batch_one_failure_of_five :
  snd (PDFStract.batch_convert example_api "pdfs" "marker" "markdown" 4
         world_configured)
  = Ok {| success := 4;
          failed := 1;
          results :=
            list_to_map
              [ ("a.pdf", PyStr "# pdfs/a.pdf");
                ("b.pdf", PyStr "# pdfs/b.pdf");
                ("c.pdf", PyDict [("error", PyStr "cannot parse pdfs/c.pdf")]);
                ("d.pdf", PyStr "# pdfs/d.pdf");
                ("e.pdf", PyStr "# pdfs/e.pdf") ] |}.
Proof. vm_compute. reflexivity. Qed.

(** A pool without workers is refused before any file is converted. *)
Example batch_without_workers :
  PDFStract.batch_convert example_api "pdfs" "marker" "markdown" 0 world_configured
  = ([EvPathExists "pdfs"; EvGlob "pdfs"; EvGetConverter "marker"],
     Raise (ValueError "max_workers must be greater than 0")).
Proof. vm_compute. reflexivity. Qed.

(** ** The combined pipeline *)

Lemma or_empty_idempotent (chunker_params : option (list (string * PyVal))) :
  PDFStract.or_empty (Some (PDFStract.or_empty chunker_params))
    = PDFStract.or_empty chunker_params.
Proof. destruct chunker_params as [[|kv rest]|]; reflexivity. Qed.

(** the text handed to the chunker is [str] of the extracted content *)
Lemma text_of_py_str (v : PyVal) : PDFStract.text_of v = py_str v.
Proof. destruct v; reflexivity. Qed.

(** the keys that bind: none is given by keyword already, none is "self" *)
Lemma plain_keys_spec (keys : list string) :
  forallb
    (fun key =>
       negb (String.eqb key "text" || String.eqb key "chunker" || String.eqb key "self"))
    keys = true
  <-> find PDFStract.given_by_keyword keys = None
      /\ existsb (String.eqb "self") keys = false.
Proof.
  induction keys as [|key keys IH]; [split; auto|].
  cbn [forallb find existsb]. unfold PDFStract.given_by_keyword at 1.
  rewrite (String.eqb_sym "self" key).
  destruct (String.eqb key "text"), (String.eqb key "chunker"),
    (String.eqb key "self"); cbn [orb negb andb];
    first [ exact IH | split; [discriminate | intros [? ?]; discriminate] ].
Qed.

(** with such keys the call runs the body of [chunk_text_async] *)
Lemma call_chunk_text_async_plain
    (w : World) (self : PDFStract.t) (text chunker : string)
    (kwargs : list (string * PyVal)) :
  plain_params kwargs = true ->
  PDFStract.call_chunk_text_async self text chunker kwargs w
    = PDFStract.chunk_text_async self text chunker kwargs w.
Proof.
  intros Hplain. apply plain_keys_spec in Hplain as [Hfind Hself].
  unfold PDFStract.call_chunk_text_async. rewrite Hfind, Hself. reflexivity.
Qed.

(** with any other keys the call raises [TypeError] and nothing runs *)
Lemma call_chunk_text_async_refuses
    (w : World) (self : PDFStract.t) (text chunker : string)
    (kwargs : list (string * PyVal)) :
  plain_params kwargs = false ->
  exists msg : string,
    PDFStract.call_chunk_text_async self text chunker kwargs w
      = ([], Raise (OtherError "TypeError" msg)).
Proof.
  intros Hplain. unfold PDFStract.call_chunk_text_async.
  destruct (find PDFStract.given_by_keyword (dict_keys kwargs)) as [key|] eqn:Hfind.
  - eexists. reflexivity.
  - destruct (existsb (String.eqb "self") (dict_keys kwargs)) eqn:Hself.
    + eexists. reflexivity.
    + assert (Htrue : plain_params kwargs = true)
        by (apply plain_keys_spec; split; assumption).
      rewrite Htrue in Hplain. discriminate.
Qed.

Lemma convert_chunk_async_run
    (w : World) (self : PDFStract.t) (pdf_path library chunker output_format : string)
    (chunker_params : option (list (string * PyVal))) :
  PDFStract.convert_chunk_async self pdf_path library chunker output_format
    chunker_params w =
  match PDFStract.convert_async self pdf_path library output_format w with
  | (t, Raise e) => (t, Raise e)
  | (t, Ok v) =>
      let chunked :=
        PDFStract.call_chunk_text_async self (py_str v) chunker
          (PDFStract.or_empty chunker_params) w in
      (t ++ fst chunked, pipeline_result v (snd chunked))
  end.
Proof.
  unfold PDFStract.convert_chunk_async. unfold bind at 1. unfold await at 1.
  destruct (PDFStract.convert_async self pdf_path library output_format w)
    as [t [v|e]]; [|reflexivity].
  rewrite text_of_py_str. unfold bind, await, ret.
  destruct (PDFStract.call_chunk_text_async self (py_str v) chunker _ w) as [t' [c|e]];
    simpl; rewrite ?app_nil_r; reflexivity.
Qed.

(** C7.  In the combined pipeline, a failed extraction is the end of the
    run: the trace and the exception are those of the extraction, so nothing
    of the chunking step has run.  An extraction that returns a value that is
    not a [str] is followed by the chunking of [str] of that value, when the
    chunker parameters bind (no key is "text", "chunker" or "self": with such
    a key the call raises [TypeError] and no text reaches a chunker).  The
    synchronous pipeline is the asynchronous one run to completion. *)
Theorem C7_convert_chunk_pipeline
    (w : World) (self : PDFStract.t) (pdf_path library chunker output_format : string)
    (chunker_params : option (list (string * PyVal))) :
  (forall (t : list Event) (e : PyExc),
     PDFStract.convert_async self pdf_path library output_format w = (t, Raise e) ->
     PDFStract.convert_chunk_async self pdf_path library chunker output_format
       chunker_params w = (t, Raise e)
     /\ PDFStract.convert_chunk self pdf_path library chunker output_format
          chunker_params w = (t, Raise e))
  /\ (forall (t : list Event) (v : PyVal),
        PDFStract.convert_async self pdf_path library output_format w = (t, Ok v) ->
        isinstance_str v = false ->
        plain_params (PDFStract.or_empty chunker_params) = true ->
        let chunked :=
          PDFStract.chunk_text_async self (repr v) chunker
            (PDFStract.or_empty chunker_params) w in
        PDFStract.convert_chunk_async self pdf_path library chunker output_format
          chunker_params w = (t ++ fst chunked, pipeline_result v (snd chunked))
        /\ PDFStract.convert_chunk self pdf_path library chunker output_format
             chunker_params w = (t ++ fst chunked, pipeline_result v (snd chunked))).
Proof.
  split.
  - intros t e Hfail. unfold PDFStract.convert_chunk, asyncio_run.
    rewrite !convert_chunk_async_run, Hfail. split; reflexivity.
  - intros t v Hok Hstr Hplain chunked. unfold PDFStract.convert_chunk, asyncio_run.
    rewrite !convert_chunk_async_run, Hok, or_empty_idempotent.
    rewrite (call_chunk_text_async_plain w self _ chunker _ Hplain).
    assert (Hrepr : py_str v = repr v) by (destruct v; [..|discriminate| |]; reflexivity).
    rewrite Hrepr. split; reflexivity.
Qed.

(** C7 on a missing file, and on a JSON extraction chunked with a chunk
    size: the chunker gets the text of the record. *)
Lemma C7_convert_chunk_pipeline_witness :
  (PDFStract.convert_chunk_async example_api "missing.pdf" "marker" "token"
     "markdown" None world_configured
   = ([EvPathExists "missing.pdf"], Raise (InputNotFound "missing.pdf"))
   /\ PDFStract.convert_chunk example_api "missing.pdf" "marker" "token"
        "markdown" None world_configured
      = ([EvPathExists "missing.pdf"], Raise (InputNotFound "missing.pdf")))
  /\ (let v := PyDict [("content", PyStr "# sample.pdf"); ("pages", PyInt 1)] in
      let t := [EvPathExists "sample.pdf"; EvGetConverter "marker";
                EvGetConverter "marker"; EvBackend "marker" JSON "sample.pdf"] in
      let chunker_params := [("chunk_size", PyInt 100)] in
      let chunked :=
        PDFStract.chunk_text_async example_api
          "{'content': '# sample.pdf', 'pages': 1}" "token"
          chunker_params world_configured in
      fst chunked
        = [EvListChunkers;
           EvChunk "token" "{'content': '# sample.pdf', 'pages': 1}" chunker_params]
      /\ PDFStract.convert_chunk_async example_api "sample.pdf" "marker" "token"
           "json" (Some chunker_params) world_configured
         = (t ++ fst chunked, pipeline_result v (snd chunked))
      /\ PDFStract.convert_chunk example_api "sample.pdf" "marker" "token"
           "json" (Some chunker_params) world_configured
         = (t ++ fst chunked, pipeline_result v (snd chunked))).
Proof.
  split.
  - apply (proj1 (C7_convert_chunk_pipeline world_configured example_api
                    "missing.pdf" "marker" "token" "markdown" None)).
    vm_compute. reflexivity.
  - intros v t chunker_params chunked.
    split; [vm_compute; reflexivity|].
    apply (proj2 (C7_convert_chunk_pipeline world_configured example_api
                    "sample.pdf" "marker" "token" "json"
                    (Some chunker_params)) t v).
    + vm_compute. reflexivity.
    + reflexivity.
    + reflexivity.
Defined.

(** ** Chunking *)

(** C8, as specified: an empty text with a chunker that is not available
    reports the empty text.  The code reports the chunker. *)
Lemma C8_empty_text_unavailable_chunker_counterexample :
  blank "" = true
  /\ ~ "nope" ∈ ChunkerFactory.list_available_chunkers
                  (get_chunker_factory world_configured)
  /\ snd (PDFStract.chunk_text_async example_api "" "nope" [] world_configured)
     = Raise (ValueError
                "Chunker 'nope' not available. Available: ['token', 'sentence']")
  /\ snd (PDFStract.chunk_text_async example_api "" "nope" [] world_configured)
     <> Raise EmptyInput.
Proof.
  split; [reflexivity|].
  split; [apply (bool_decide_unpack _); vm_compute; exact I|].
  split; [vm_compute; reflexivity|].
  vm_compute. discriminate.
Qed.

(** C8, amended.  A chunking call lists the available chunkers and resolves
    the name ("auto" stands for the default chunker, and fails when there is
    none); then it checks that the chunker is available; then that the text
    is not blank; then it dispatches.  So a chunker that is not available is
    reported whatever the text is, and a blank text is reported only for a
    chunker that is available. *)
Theorem C8_chunk_checks_in_order
    (w : World) (self : PDFStract.t) (text chunker : string)
    (kwargs : list (string * PyVal)) :
  let factory := get_chunker_factory w in
  let available := ChunkerFactory.list_available_chunkers factory in
  let run := PDFStract.chunk_text_async self text chunker kwargs w in
  (resolved_chunker factory chunker = None ->
     run = (resolution_trace chunker, Raise NoChunkerAvailable))
  /\ (forall name : string,
        resolved_chunker factory chunker = Some name ->
        (~ name ∈ available ->
           run = (resolution_trace chunker, Raise (ChunkerNotAvailable name available)))
        /\ (name ∈ available -> blank text = true ->
              run = (resolution_trace chunker, Raise EmptyInput))
        /\ (name ∈ available -> blank text = false ->
              run = (resolution_trace chunker ++ [EvChunk name text kwargs],
                     result_map to_dict
                       (ChunkerFactory.chunk_with_result factory name text kwargs)))).
Proof.
  intros factory available run. subst run.
  unfold PDFStract.chunk_text_async, resolved_chunker, resolution_trace.
  fold (blank text). run_unfold. simpl. fold factory. fold available.
  destruct (String.eqb chunker "auto") eqn:Hauto.
  - destruct (ChunkerFactory.get_default_chunker factory) as [inst|]; simpl.
    + split; [discriminate|].
      intros name Hname. injection Hname as <-.
      repeat split.
      * intros Hnot. rewrite (bool_decide_eq_true_2 _ Hnot). reflexivity.
      * intros Hin Hblank.
        rewrite (bool_decide_eq_false_2 (chunker_name inst ∉ available))
          by (intros Hn; exact (Hn Hin)).
        rewrite Hblank. reflexivity.
      * intros Hin Hblank.
        rewrite (bool_decide_eq_false_2 (chunker_name inst ∉ available))
          by (intros Hn; exact (Hn Hin)).
        rewrite Hblank. simpl.
        destruct (ChunkerFactory.chunk_with_result factory _ text kwargs); reflexivity.
    + split; [reflexivity|]. intros name Hname. discriminate.
  - simpl. split; [discriminate|].
    intros name Hname. injection Hname as <-.
    repeat split.
    + intros Hnot. rewrite (bool_decide_eq_true_2 _ Hnot). reflexivity.
    + intros Hin Hblank.
      rewrite (bool_decide_eq_false_2 (chunker ∉ available))
        by (intros Hn; exact (Hn Hin)).
      rewrite Hblank. reflexivity.
    + intros Hin Hblank.
      rewrite (bool_decide_eq_false_2 (chunker ∉ available))
        by (intros Hn; exact (Hn Hin)).
      rewrite Hblank. simpl.
      destruct (ChunkerFactory.chunk_with_result factory _ text kwargs); reflexivity.
Qed.

(** C8 (amended) on an unknown chunker, a blank text and a plain call. *)
Lemma C8_chunk_checks_in_order_witness :
  PDFStract.chunk_text_async example_api "" "nope" [] world_configured
    = ([EvListChunkers],
       Raise (ChunkerNotAvailable "nope" ["token"; "sentence"]))
  /\ PDFStract.chunk_text_async example_api "  " "auto" [] world_configured
    = ([EvListChunkers; EvDefaultChunker], Raise EmptyInput)
  /\ PDFStract.chunk_text_async example_api "some text" "sentence" [] world_configured
    = ([EvListChunkers; EvChunk "sentence" "some text" []],
       result_map to_dict
         (ChunkerFactory.chunk_with_result example_chunker_factory
            "sentence" "some text" [])).
Proof.
  split; [|split].
  - apply (proj2 (C8_chunk_checks_in_order world_configured example_api
                    "" "nope" []) "nope").
    + reflexivity.
    + apply (bool_decide_unpack _). vm_compute. exact I.
  - apply (proj2 (C8_chunk_checks_in_order world_configured example_api
                    "  " "auto" []) "token").
    + reflexivity.
    + apply (bool_decide_unpack _). vm_compute. exact I.
    + reflexivity.
  - apply (proj2 (C8_chunk_checks_in_order world_configured example_api
                    "some text" "sentence" []) "sentence").
    + reflexivity.
    + apply (bool_decide_unpack _). vm_compute. exact I.
    + reflexivity.
Defined.

(** ** The lifecycle of the MinerU backend *)

(** The backend never needs a download, whatever its attributes hold. *)
Lemma mineru_download_status (self : MinerUConverter.t) :
  MinerUConverter.download_status self = NOT_REQUIRED.
Proof. reflexivity. Qed.

(** C9.  On a backend whose download status is READY or NOT_REQUIRED,
    [prepare] returns the current availability, does nothing outside the
    orchestration layer (its trace is empty: no download, no process) and
    leaves the object as it was; called twice in a row it returns the same
    value both times, and the status afterwards is the status before. *)
Theorem C9_prepare_is_idempotent (w : World) (self : MinerUConverter.t) :
  MinerUConverter.download_status self = READY
  \/ MinerUConverter.download_status self = NOT_REQUIRED ->
  snd (MinerUConverter.available self w) = Ok (MINERU_AVAILABLE w)
  /\ MinerUConverter.prepare self w = ([], Ok (self, MINERU_AVAILABLE w))
  /\ (first <- MinerUConverter.prepare self ;;
      second <- MinerUConverter.prepare (fst first) ;;
      ret (snd first, snd second, fst second)) w
     = ([], Ok (MINERU_AVAILABLE w, MINERU_AVAILABLE w, self))
  /\ MinerUConverter.download_status self = NOT_REQUIRED.
Proof.
  intros _. repeat split.
Qed.

(** C9 on a freshly built MinerU backend. *)
Lemma C9_prepare_is_idempotent_witness :
  snd (MinerUConverter.available MinerUConverter.__init__ world_configured) = Ok true
  /\ MinerUConverter.prepare MinerUConverter.__init__ world_configured
     = ([], Ok (MinerUConverter.__init__, true))
  /\ (first <- MinerUConverter.prepare MinerUConverter.__init__ ;;
      second <- MinerUConverter.prepare (fst first) ;;
      ret (snd first, snd second, fst second)) world_configured
     = ([], Ok (true, true, MinerUConverter.__init__))
  /\ MinerUConverter.download_status MinerUConverter.__init__ = NOT_REQUIRED.
Proof.
  apply (C9_prepare_is_idempotent world_configured MinerUConverter.__init__).
  right. reflexivity.
Defined.

(* ===================================================================== *)
(** * Further properties of the code *)
(* ===================================================================== *)

(** ** Insertion-ordered dictionaries *)

Lemma dict_get_set_eq {V : Type} (k : string) (v : V) (d : list (string * V)) :
  dict_get k (dict_set k v d) = Some v.
Proof.
  induction d as [|[k' v'] d IH]; simpl.
  - rewrite String.eqb_refl. reflexivity.
  - destruct (String.eqb k' k) eqn:E; simpl; rewrite E; [reflexivity | exact IH].
Qed.

Lemma dict_get_set_ne {V : Type} (k k' : string) (v : V) (d : list (string * V)) :
  k <> k' -> dict_get k' (dict_set k v d) = dict_get k' d.
Proof.
  intros Hne. induction d as [|[k0 v0] d IH]; simpl.
  - destruct (String.eqb k k') eqn:E; [|reflexivity].
    apply String.eqb_eq in E. contradiction.
  - destruct (String.eqb k0 k) eqn:E; simpl.
    + apply String.eqb_eq in E. subst k0.
      destruct (String.eqb k k') eqn:E'; [|reflexivity].
      apply String.eqb_eq in E'. contradiction.
    + rewrite IH. reflexivity.
Qed.

Lemma dict_get_not_key {V : Type} (k : string) (d : list (string * V)) :
  ~ In k (dict_keys d) -> dict_get k d = None.
Proof.
  induction d as [|[k' v'] d IH]; simpl; intros Hk; [reflexivity|].
  destruct (String.eqb k' k) eqn:E.
  - apply String.eqb_eq in E. exfalso. apply Hk. left. exact E.
  - apply IH. intros Hin. apply Hk. right. exact Hin.
Qed.

Lemma dict_get_key {V : Type} (k : string) (d : list (string * V)) (v : V) :
  dict_get k d = Some v -> In k (dict_keys d).
Proof.
  induction d as [|[k' v'] d IH]; simpl; [discriminate|].
  destruct (String.eqb k' k) eqn:E; intros H.
  - left. apply String.eqb_eq. exact E.
  - right. apply IH. exact H.
Qed.

Lemma dict_set_fresh {V : Type} (k : string) (v : V) (d : list (string * V)) :
  ~ In k (dict_keys d) -> dict_set k v d = d ++ [(k, v)].
Proof.
  induction d as [|[k' v'] d IH]; simpl; intros Hk; [reflexivity|].
  destruct (String.eqb k' k) eqn:E.
  - apply String.eqb_eq in E. exfalso. apply Hk. left. exact E.
  - rewrite IH; [reflexivity|]. intros Hin. apply Hk. right. exact Hin.
Qed.

Lemma dict_get_app_l {V : Type} (k : string) (d d' : list (string * V)) (v : V) :
  dict_get k d = Some v -> dict_get k (d ++ d') = Some v.
Proof.
  induction d as [|[k' v'] d IH]; simpl; [discriminate|].
  destruct (String.eqb k' k); [trivial | exact IH].
Qed.

Lemma dict_get_app_r {V : Type} (k : string) (d d' : list (string * V)) :
  dict_get k d = None -> dict_get k (d ++ d') = dict_get k d'.
Proof.
  induction d as [|[k' v'] d IH]; simpl; [reflexivity|].
  destruct (String.eqb k' k); [discriminate | exact IH].
Qed.

(** ** The registry that a build leaves *)

Lemma not_enabled_iff (libs : list string) (name : string) :
  bool_decide (name ∉ (list_to_set libs : gset string))
    = negb (bool_decide (name ∈ libs)).
Proof.
  destruct (bool_decide (name ∈ libs)) eqn:E; simpl.
  - apply bool_decide_eq_true in E. apply bool_decide_eq_false.
    intros Hn. apply Hn. apply elem_of_list_to_set. exact E.
  - apply bool_decide_eq_false in E. apply bool_decide_eq_true.
    intros Hin. apply E. apply elem_of_list_to_set in Hin. exact Hin.
Qed.

Lemma register_converter_run (w : World) (libs : list string)
    (self : OCRFactory.t) (c : PDFConverter.t) :
  snd (OCRFactory.register_converter (list_to_set libs) self c w)
    = Ok {| OCRFactory._converters :=
              register_step libs (OCRFactory._converters self) c |}.
Proof.
  unfold OCRFactory.register_converter, register_step, enabled_and_available.
  rewrite not_enabled_iff. destruct self as [reg]. simpl.
  destruct (bool_decide (PDFConverter.name c ∈ libs)); simpl; [|reflexivity].
  destruct (PDFConverter.available c); reflexivity.
Qed.

Lemma for_each_register (w : World) (libs : list string)
    (l : list PDFConverter.t) (self : OCRFactory.t) :
  snd (for_each l (OCRFactory.register_converter (list_to_set libs)) self w)
    = Ok {| OCRFactory._converters :=
              fold_left (register_step libs) l (OCRFactory._converters self) |}.
Proof.
  revert self. induction l as [|c l IH]; intros self; simpl.
  - destruct self. reflexivity.
  - unfold bind. pose proof (register_converter_run w libs self c) as Hc.
    destruct (OCRFactory.register_converter (list_to_set libs) self c w) as [t r].
    simpl in Hc. subst r.
    specialize (IH {| OCRFactory._converters :=
                        register_step libs (OCRFactory._converters self) c |}).
    destruct (for_each l _ _ w) as [t' r']. simpl in IH. subst r'. reflexivity.
Qed.

Lemma fold_register_nothing_enabled (l : list PDFConverter.t)
    (registry : list (string * PDFConverter.t)) :
  fold_left (register_step []) l registry = registry.
Proof.
  induction l as [|c l IH]; simpl; [reflexivity|].
  unfold register_step at 2, enabled_and_available.
  rewrite bool_decide_eq_false_2 by apply not_elem_of_nil. simpl. exact IH.
Qed.

(** The registry of a build and its outcome, when the database answers: the
    loop over the converter classes, started on an empty registry.  (With
    no enabled library the build returns early, which the loop would have
    come to as well.) *)
Lemma register_default_converters_ok (w : World) (libs : list string) :
  db_get_enabled_libraries w = Ok libs ->
  snd (OCRFactory._register_default_converters {| OCRFactory._converters := [] |} w)
    = Ok ({| OCRFactory._converters :=
               fold_left (register_step libs) (OCRFactory.all_converters w) [] |},
          Ok tt).
Proof.
  intros Hdb. unfold OCRFactory._register_default_converters.
  unfold bind at 1. rewrite (try_load_enabled_libraries_ok w libs Hdb).
  unfold bind, ask, logger_info, logger_warning, tell, ret. cbn beta iota.
  match goal with
  | |- context [bool_decide ?P] => destruct (bool_decide P) eqn:Hsize
  end.
  - apply bool_decide_eq_true in Hsize. apply size_empty_inv in Hsize.
    assert (Hnil : libs = []).
    { destruct libs as [|x libs]; [reflexivity|].
      exfalso. apply (not_elem_of_empty (C:=gset string) x).
      rewrite <- (leibniz_equiv _ _ Hsize). apply elem_of_list_to_set. left. }
    subst libs. rewrite fold_register_nothing_enabled. reflexivity.
  - pose proof (for_each_register w libs (OCRFactory.all_converters w)
                  {| OCRFactory._converters := [] |}) as Hloop.
    destruct (for_each (OCRFactory.all_converters w) _ _ w) as [t r].
    simpl in Hloop. subst r. reflexivity.
Qed.

Lemma built_factory_registry (w : World) (libs : list string) :
  db_get_enabled_libraries w = Ok libs ->
  built_factory w
    = {| OCRFactory._converters :=
           fold_left (register_step libs) (OCRFactory.all_converters w) [] |}.
Proof.
  intros Hdb. unfold built_factory, OCRFactory.__init__, bind.
  pose proof (register_default_converters_ok w libs Hdb) as Hreg.
  destruct (OCRFactory._register_default_converters _ w) as [t r].
  simpl in Hreg. subst r. reflexivity.
Qed.

Lemma refresh_converters_registry (w : World) (libs : list string)
    (self : OCRFactory.t) :
  db_get_enabled_libraries w = Ok libs ->
  outcome (OCRFactory.refresh_converters self w) = Ok tt
  /\ object_after self (OCRFactory.refresh_converters self w) = built_factory w.
Proof.
  intros Hdb. rewrite (built_factory_registry w libs Hdb).
  unfold outcome, object_after, OCRFactory.refresh_converters.
  rewrite (register_default_converters_ok w libs Hdb). split; reflexivity.
Qed.

Lemma fold_register_sound (libs : list string) (l : list PDFConverter.t)
    (registry : list (string * PDFConverter.t)) (k : string) (c : PDFConverter.t) :
  dict_get k (fold_left (register_step libs) l registry) = Some c ->
  dict_get k registry = Some c
  \/ (PDFConverter.name c = k /\ k ∈ libs /\ PDFConverter.available c = true
      /\ In c l).
Proof.
  revert registry. induction l as [|x l IH]; intros registry Hget; simpl in *.
  - left. exact Hget.
  - destruct (IH _ Hget) as [Hreg|(Hn & Hk & Ha & Hin)].
    + unfold register_step in Hreg.
      destruct (enabled_and_available libs x) eqn:Hx; [|left; exact Hreg].
      destruct (String.eqb_spec (PDFConverter.name x) k) as [Heq|Hne].
      * subst k. rewrite dict_get_set_eq in Hreg. injection Hreg as <-.
        unfold enabled_and_available in Hx. apply andb_true_iff in Hx as [Hin Hav].
        apply bool_decide_eq_true in Hin.
        right. split; [reflexivity|]. split; [exact Hin|]. split; [exact Hav|].
        left. reflexivity.
      * rewrite dict_get_set_ne in Hreg by exact Hne. left. exact Hreg.
    + right. split; [exact Hn|]. split; [exact Hk|]. split; [exact Ha|].
      right. exact Hin.
Qed.

Lemma fold_register_contents (libs : list string) (l : list PDFConverter.t)
    (registry : list (string * PDFConverter.t)) :
  NoDup (map PDFConverter.name l) ->
  (forall c, In c l -> ~ In (PDFConverter.name c) (dict_keys registry)) ->
  fold_left (register_step libs) l registry
    = registry ++ map (fun c => (PDFConverter.name c, c))
                    (List.filter (enabled_and_available libs) l).
Proof.
  revert registry. induction l as [|x l IH]; intros registry Hnd Hfresh; simpl.
  - rewrite app_nil_r. reflexivity.
  - simpl in Hnd. apply NoDup_cons in Hnd as [Hx Hnd].
    unfold register_step at 2.
    destruct (enabled_and_available libs x) eqn:Hen.
    + rewrite dict_set_fresh by (apply Hfresh; left; reflexivity).
      rewrite IH; [simpl; rewrite <- app_assoc; reflexivity | exact Hnd |].
      intros c Hc Hin. unfold dict_keys in Hin. rewrite map_app in Hin.
      apply in_app_or in Hin as [Hin|Hin].
      * apply (Hfresh c); [right; exact Hc | exact Hin].
      * simpl in Hin. destruct Hin as [Heq|[]].
        apply Hx. rewrite Heq. apply list_elem_of_In. apply in_map. exact Hc.
    + apply IH; [exact Hnd|]. intros c Hc. apply Hfresh. right. exact Hc.
Qed.

(** X1.  After [refresh_converters], whatever the registry held before, a
    name resolves only to a converter of the factory's own list that carries
    that name, is enabled in the database and is available; and the registry
    is the one a new factory would build. *)
Theorem X1_refresh_keeps_only_enabled_available
    (w : World) (self : OCRFactory.t) (libs : list string)
    (name : string) (c : PDFConverter.t) :
  db_get_enabled_libraries w = Ok libs ->
  snd (OCRFactory.get_converter
         (object_after self (OCRFactory.refresh_converters self w)) name w)
    = Ok (Some c) ->
  name ∈ libs
  /\ PDFConverter.name c = name
  /\ PDFConverter.available c = true
  /\ In c (OCRFactory.all_converters w)
  /\ snd (OCRFactory.__init__ w)
     = Ok (object_after self (OCRFactory.refresh_converters self w)).
Proof.
  intros Hdb Hget.
  destruct (refresh_converters_registry w libs self Hdb) as [_ Hafter].
  rewrite Hafter in *. rewrite get_converter_run in Hget. cbn [snd] in Hget.
  injection Hget as Hget.
  rewrite (built_factory_registry w libs Hdb) in Hget.
  cbn [OCRFactory._converters] in Hget.
  destruct (fold_register_sound libs _ [] name c Hget)
    as [Hnil|(Hn & Hk & Ha & Hin)]; [discriminate|].
  repeat split; auto.
  unfold OCRFactory.__init__, bind.
  pose proof (register_default_converters_ok w libs Hdb) as Hreg.
  rewrite (built_factory_registry w libs Hdb).
  destruct (OCRFactory._register_default_converters _ w) as [t r].
  simpl in Hreg. subst r. reflexivity.
Qed.

(** X1 on a factory that held the MinerU backend, refreshed where the
    database enables two libraries. *)
Lemma X1_refresh_keeps_only_enabled_available_witness :
  let c := example_converter "marker" true ["pdfs/c.pdf"] in
  "marker" ∈ ["pymupdf4llm"; "marker"]
  /\ PDFConverter.name c = "marker"
  /\ PDFConverter.available c = true
  /\ In c (OCRFactory.all_converters world_configured)
  /\ snd (OCRFactory.__init__ world_configured)
     = Ok (object_after mineru_factory
             (OCRFactory.refresh_converters mineru_factory world_configured)).
Proof.
  intros c.
  apply (X1_refresh_keeps_only_enabled_available world_configured mineru_factory
           ["pymupdf4llm"; "marker"] "marker" c).
  - reflexivity.
  - vm_compute. reflexivity.
Defined.

Lemma NoDup_map_filter {A B : Type} (f : A -> B) (p : A -> bool) (l : list A) :
  NoDup (map f l) -> NoDup (map f (List.filter p l)).
Proof.
  induction l as [|x l IH]; simpl; intros Hnd; [exact Hnd|].
  apply NoDup_cons in Hnd as [Hx Hnd].
  destruct (p x); simpl; [|exact (IH Hnd)].
  apply NoDup_cons. split; [|exact (IH Hnd)].
  intros Hin. apply Hx. apply list_elem_of_In in Hin. apply list_elem_of_In.
  apply in_map_iff in Hin as (y & Hy & Hin). apply in_map_iff.
  exists y. split; [exact Hy|]. apply filter_In in Hin. tauto.
Qed.

Lemma dict_get_named (l : list PDFConverter.t) (c : PDFConverter.t) :
  NoDup (map PDFConverter.name l) ->
  In c l ->
  dict_get (PDFConverter.name c) (map (fun x => (PDFConverter.name x, x)) l) = Some c.
Proof.
  induction l as [|x l IH]; simpl; intros Hnd Hin; [contradiction|].
  apply NoDup_cons in Hnd as [Hx Hnd].
  destruct Hin as [->|Hin].
  - rewrite String.eqb_refl. reflexivity.
  - destruct (String.eqb_spec (PDFConverter.name x) (PDFConverter.name c)) as [Heq|Hne].
    + exfalso. apply Hx. rewrite Heq. apply list_elem_of_In. apply in_map. exact Hin.
    + apply IH; assumption.
Qed.

(** X2.  When the converter classes have names of their own, the registry
    of a build holds the enabled and available ones and nothing else, in the
    order of the classes: that is the list of available names, and each such
    converter is what its name resolves to. *)
Theorem X2_build_registers_enabled_available_in_order
    (w : World) (libs : list string) :
  db_get_enabled_libraries w = Ok libs ->
  NoDup (map PDFConverter.name (OCRFactory.all_converters w)) ->
  snd (OCRFactory.list_available_converters (built_factory w) w)
    = Ok (map PDFConverter.name
            (List.filter (enabled_and_available libs) (OCRFactory.all_converters w)))
  /\ forall c : PDFConverter.t,
       In c (OCRFactory.all_converters w) ->
       enabled_and_available libs c = true ->
       snd (OCRFactory.get_converter (built_factory w) (PDFConverter.name c) w)
         = Ok (Some c).
Proof.
  intros Hdb Hnd.
  assert (Hreg : OCRFactory._converters (built_factory w)
                 = map (fun c => (PDFConverter.name c, c))
                     (List.filter (enabled_and_available libs)
                        (OCRFactory.all_converters w))).
  { rewrite (built_factory_registry w libs Hdb). cbn [OCRFactory._converters].
    rewrite (fold_register_contents libs (OCRFactory.all_converters w) [] Hnd)
      by (intros c _ []).
    reflexivity. }
  split.
  - unfold OCRFactory.list_available_converters, ret. cbn [snd]. rewrite Hreg.
    unfold dict_keys. rewrite map_map. reflexivity.
  - intros c Hin Hen. rewrite get_converter_run. cbn [snd]. rewrite Hreg. f_equal.
    apply dict_get_named.
    + apply NoDup_map_filter. exact Hnd.
    + apply filter_In. split; assumption.
Qed.

(** X2 where the database enables two libraries and all are installed. *)
Lemma X2_build_registers_enabled_available_in_order_witness :
  snd (OCRFactory.list_available_converters (built_factory world_configured)
         world_configured)
    = Ok (map PDFConverter.name
            (List.filter (enabled_and_available ["pymupdf4llm"; "marker"])
               (OCRFactory.all_converters world_configured)))
  /\ forall c : PDFConverter.t,
       In c (OCRFactory.all_converters world_configured) ->
       enabled_and_available ["pymupdf4llm"; "marker"] c = true ->
       snd (OCRFactory.get_converter (built_factory world_configured)
              (PDFConverter.name c) world_configured)
         = Ok (Some c).
Proof.
  apply (X2_build_registers_enabled_available_in_order world_configured
           ["pymupdf4llm"; "marker"]).
  - reflexivity.
  - apply (bool_decide_unpack _). vm_compute. exact I.
Defined.

(** ** Listings *)

Lemma enabled_iff (libs : list string) (name : string) :
  bool_decide (name ∈ (list_to_set libs : gset string)) = bool_decide (name ∈ libs).
Proof.
  apply bool_decide_ext. apply elem_of_list_to_set.
Qed.

(** The listing of a registry that a build left: a registered name is shown
    as available and without error, any other name as unavailable with the
    text "Unavailable". *)
Lemma list_all_converters_built (w : World) (libs : list string) :
  db_get_enabled_libraries w = Ok libs ->
  snd (OCRFactory.list_all_converters (built_factory w) w)
    = Ok (map (fun name =>
                 listing
                   (bool_decide
                      (is_Some (dict_get name (OCRFactory._converters (built_factory w)))))
                   (bool_decide (name ∈ libs)) name)
            listed_names).
Proof.
  intros Hdb. unfold OCRFactory.list_all_converters. unfold bind at 1.
  rewrite (try_load_enabled_libraries_ok w libs Hdb).
  match goal with
  | |- snd (let '(t', r) := ?run in _) = _ =>
      assert (Hrun : snd run
                     = Ok (map (fun name =>
                             listing
                               (bool_decide
                                  (is_Some (dict_get name
                                              (OCRFactory._converters (built_factory w)))))
                               (bool_decide (name ∈ libs)) name)
                             listed_names));
      [|destruct run as [t r]; simpl in Hrun; subst r; reflexivity]
  end.
  apply (list_comp_total _ _ w listed_names).
  intros name. unfold bind, load_local, ret. simpl.
  rewrite enabled_iff.
  destruct (dict_get name (OCRFactory._converters (built_factory w)))
    as [c|] eqn:Hget.
  - rewrite (built_factory_registry w libs Hdb) in Hget.
    cbn [OCRFactory._converters] in Hget.
    destruct (fold_register_sound libs _ [] name c Hget)
      as [Hnil|(_ & _ & Ha & _)]; [discriminate|].
    rewrite Ha. reflexivity.
  - reflexivity.
Qed.

(** X3.  For a registry that a build left, [list_all_converters] returns
    one record for each of its eight names, in their order: a registered
    name is shown as available with no error, any other name as unavailable
    with the error text "Unavailable", and "enabled" tells whether the
    database enables the name.  The message of a converter that is not
    available is never shown, since such a converter is never registered. *)
Theorem X3_listing_of_a_built_registry (w : World) (libs : list string) :
  db_get_enabled_libraries w = Ok libs ->
  snd (OCRFactory.list_all_converters (built_factory w) w)
    = Ok (map (fun name =>
                 listing
                   (bool_decide
                      (is_Some (dict_get name (OCRFactory._converters (built_factory w)))))
                   (bool_decide (name ∈ libs)) name)
            listed_names).
Proof. exact (list_all_converters_built w libs). Qed.

(** X3 where two libraries are enabled and every backend is missing: both
    are shown as enabled, unavailable, with the error "Unavailable". *)
Lemma X3_listing_of_a_built_registry_witness :
  let w := example_world (Ok ["pymupdf4llm"; "marker"]) false in
  snd (OCRFactory.list_all_converters (built_factory w) w)
    = Ok (map (fun name =>
                 listing
                   (bool_decide
                      (is_Some (dict_get name (OCRFactory._converters (built_factory w)))))
                   (bool_decide (name ∈ ["pymupdf4llm"; "marker"])) name)
            listed_names).
Proof.
  intros w.
  apply (X3_listing_of_a_built_registry w ["pymupdf4llm"; "marker"]).
  reflexivity.
Defined.

(** ** The factory's conversion: what it refuses *)

Lemma factory_convert_async_unknown
    (w : World) (factory : OCRFactory.t) (converter_name file_path : string)
    (fmt : OutputFormat) :
  dict_get converter_name (OCRFactory._converters factory) = None ->
  OCRFactory.convert_async factory converter_name file_path fmt w
    = ([EvGetConverter converter_name],
       Raise (ValueError ("Converter '" +:+ converter_name +:+ "' is not available"))).
Proof.
  intros Hget. unfold OCRFactory.convert_async. unfold bind at 1.
  rewrite get_converter_run, Hget. reflexivity.
Qed.

Lemma factory_convert_async_unsupported
    (w : World) (factory : OCRFactory.t) (converter_name file_path : string)
    (fmt : OutputFormat) (converter : PDFConverter.t) :
  dict_get converter_name (OCRFactory._converters factory) = Some converter ->
  PDFConverter.supports_format converter fmt = false ->
  OCRFactory.convert_async factory converter_name file_path fmt w
    = ([EvGetConverter converter_name],
       Raise (ValueError ("Converter '" +:+ converter_name
                            +:+ "' does not support format '"
                            +:+ OutputFormat_value fmt +:+ "'"))).
Proof.
  intros Hget Hsup. unfold OCRFactory.convert_async. unfold bind at 1.
  rewrite get_converter_run, Hget, Hsup. reflexivity.
Qed.

(** X4.  The factory's [convert_async], and [convert] with it, refuses a
    name that is not registered and a format the converter does not
    support with a [ValueError] that names the converter (and the format);
    in both cases the run stops at the lookup and no method of a backend is
    called. *)
Theorem X4_factory_refuses_before_dispatch
    (w : World) (factory : OCRFactory.t) (converter_name file_path : string)
    (fmt : OutputFormat) :
  (dict_get converter_name (OCRFactory._converters factory) = None ->
   OCRFactory.convert factory converter_name file_path fmt w
     = ([EvGetConverter converter_name],
        Raise (ValueError ("Converter '" +:+ converter_name +:+ "' is not available"))))
  /\ (forall converter : PDFConverter.t,
        dict_get converter_name (OCRFactory._converters factory) = Some converter ->
        PDFConverter.supports_format converter fmt = false ->
        OCRFactory.convert factory converter_name file_path fmt w
          = ([EvGetConverter converter_name],
             Raise (ValueError ("Converter '" +:+ converter_name
                                  +:+ "' does not support format '"
                                  +:+ OutputFormat_value fmt +:+ "'")))).
Proof.
  unfold OCRFactory.convert, asyncio_run. split.
  - apply factory_convert_async_unknown.
  - apply factory_convert_async_unsupported.
Qed.

(** X4 on a name nobody registered and on a backend that has markdown only. *)
Lemma X4_factory_refuses_before_dispatch_witness :
  OCRFactory.convert markdown_only_factory "marker" "sample.pdf" JSON world_configured
    = ([EvGetConverter "marker"],
       Raise (ValueError "Converter 'marker' is not available"))
  /\ OCRFactory.convert markdown_only_factory "markitdown" "sample.pdf" JSON
       world_configured
     = ([EvGetConverter "markitdown"],
        Raise (ValueError "Converter 'markitdown' does not support format 'json'")).
Proof.
  split.
  - apply (proj1 (X4_factory_refuses_before_dispatch world_configured
                    markdown_only_factory "marker" "sample.pdf" JSON)).
    reflexivity.
  - apply (proj2 (X4_factory_refuses_before_dispatch world_configured
                    markdown_only_factory "markitdown" "sample.pdf" JSON)
             markdown_only_converter); reflexivity.
Defined.

(** ** Single conversions: success and format errors *)

(** X5.  When the backend is registered, the file exists, the format is one
    of the enumeration and the converter supports it, both entry points
    return the value the capability method returned, as it is; the method is
    called once, after the checks. *)
Theorem X5_convert_returns_the_backend_value
    (w : World) (factory : OCRFactory.t) (pdf_path library output_format : string)
    (fmt : OutputFormat) (converter : PDFConverter.t)
    (t : list Event) (v : PyVal) :
  dict_get library (OCRFactory._converters factory) = Some converter ->
  fs_exists w pdf_path = true ->
  OutputFormat_call output_format = Ok fmt ->
  PDFConverter.supports_format converter fmt = true ->
  capability converter fmt pdf_path = (t, Ok v) ->
  PDFStract.convert (PDFStract.over factory) pdf_path library output_format w
    = ([EvGetConverter library; EvPathExists pdf_path; EvGetConverter library;
        EvBackend (PDFConverter.name converter) fmt pdf_path] ++ t,
       Ok v)
  /\ PDFStract.convert_async (PDFStract.over factory) pdf_path library output_format w
    = ([EvPathExists pdf_path; EvGetConverter library; EvGetConverter library;
        EvBackend (PDFConverter.name converter) fmt pdf_path] ++ t,
       Ok v).
Proof.
  intros Hget Hex Hfmt Hsup Hcap.
  destruct (convert_checked w factory pdf_path library output_format converter Hget Hex)
    as [Hs Ha].
  rewrite Hs, Ha. unfold try_except, bind, lift_result. rewrite Hfmt.
  rewrite (factory_convert_async_dispatch w _ library pdf_path fmt converter Hget Hsup).
  rewrite Hcap. split; reflexivity.
Qed.

(** X5 on the JSON output of an installed backend. *)
Lemma X5_convert_returns_the_backend_value_witness :
  let v := PyDict [("content", PyStr "# sample.pdf"); ("pages", PyInt 1)] in
  PDFStract.convert example_api "sample.pdf" "marker" "json" world_configured
    = ([EvGetConverter "marker"; EvPathExists "sample.pdf"; EvGetConverter "marker";
        EvBackend "marker" JSON "sample.pdf"] ++ [],
       Ok v)
  /\ PDFStract.convert_async example_api "sample.pdf" "marker" "json" world_configured
    = ([EvPathExists "sample.pdf"; EvGetConverter "marker"; EvGetConverter "marker";
        EvBackend "marker" JSON "sample.pdf"] ++ [],
       Ok v).
Proof.
  intros v.
  apply (X5_convert_returns_the_backend_value world_configured
           (built_factory world_configured) "sample.pdf" "marker" "json" JSON
           (example_converter "marker" true ["pdfs/c.pdf"]) [] v);
    vm_compute; reflexivity.
Defined.

(** X6.  A format value that the enumeration refuses is reported by both
    entry points as a failed conversion that carries the message of the
    enumeration, and only once the backend is resolved and the file is
    found; the factory is not asked to convert. *)
Theorem X6_invalid_format_value_is_a_failed_conversion
    (w : World) (factory : OCRFactory.t) (pdf_path library output_format : string)
    (converter : PDFConverter.t) (e : PyExc) :
  dict_get library (OCRFactory._converters factory) = Some converter ->
  fs_exists w pdf_path = true ->
  OutputFormat_call output_format = Raise e ->
  PDFStract.convert (PDFStract.over factory) pdf_path library output_format w
    = ([EvGetConverter library; EvPathExists pdf_path], Raise (ConversionFailed e))
  /\ PDFStract.convert_async (PDFStract.over factory) pdf_path library output_format w
    = ([EvPathExists pdf_path; EvGetConverter library], Raise (ConversionFailed e)).
Proof.
  intros Hget Hex Hfmt.
  destruct (convert_checked w factory pdf_path library output_format converter Hget Hex)
    as [Hs Ha].
  rewrite Hs, Ha. unfold try_except, bind, lift_result, raise. rewrite Hfmt.
  split; reflexivity.
Qed.

(** X6 on a format value that is no member of the enumeration. *)
Lemma X6_invalid_format_value_is_a_failed_conversion_witness :
  let e := ValueError "'docx' is not a valid OutputFormat" in
  PDFStract.convert example_api "sample.pdf" "marker" "docx" world_configured
    = ([EvGetConverter "marker"; EvPathExists "sample.pdf"], Raise (ConversionFailed e))
  /\ PDFStract.convert_async example_api "sample.pdf" "marker" "docx" world_configured
    = ([EvPathExists "sample.pdf"; EvGetConverter "marker"], Raise (ConversionFailed e)).
Proof.
  intros e.
  apply (X6_invalid_format_value_is_a_failed_conversion world_configured
           (built_factory world_configured) "sample.pdf" "marker" "docx"
           (example_converter "marker" true ["pdfs/c.pdf"]) e);
    vm_compute; reflexivity.
Defined.

(** X7.  A format the converter does not support is reported by both entry
    points as a failed conversion around the factory's own message, and no
    method of the backend is called. *)
Theorem X7_unsupported_format_is_a_failed_conversion
    (w : World) (factory : OCRFactory.t) (pdf_path library output_format : string)
    (fmt : OutputFormat) (converter : PDFConverter.t) :
  dict_get library (OCRFactory._converters factory) = Some converter ->
  fs_exists w pdf_path = true ->
  OutputFormat_call output_format = Ok fmt ->
  PDFConverter.supports_format converter fmt = false ->
  let refused :=
    ValueError ("Conversion failed: Converter '" +:+ library
                  +:+ "' does not support format '" +:+ OutputFormat_value fmt +:+ "'") in
  PDFStract.convert (PDFStract.over factory) pdf_path library output_format w
    = ([EvGetConverter library; EvPathExists pdf_path; EvGetConverter library],
       Raise refused)
  /\ PDFStract.convert_async (PDFStract.over factory) pdf_path library output_format w
    = ([EvPathExists pdf_path; EvGetConverter library; EvGetConverter library],
       Raise refused).
Proof.
  intros Hget Hex Hfmt Hsup refused.
  destruct (convert_checked w factory pdf_path library output_format converter Hget Hex)
    as [Hs Ha].
  rewrite Hs, Ha. unfold try_except, bind, lift_result, raise. rewrite Hfmt.
  rewrite (factory_convert_async_unsupported w _ library pdf_path fmt converter Hget Hsup).
  split; reflexivity.
Qed.

(** X7 on a backend that has markdown only, asked for JSON. *)
Lemma X7_unsupported_format_is_a_failed_conversion_witness :
  let refused :=
    ValueError ("Conversion failed: Converter '" +:+ "markitdown"
                  +:+ "' does not support format '" +:+ OutputFormat_value JSON +:+ "'") in
  PDFStract.convert (PDFStract.over markdown_only_factory) "sample.pdf" "markitdown"
    "json" world_configured
    = ([EvGetConverter "markitdown"; EvPathExists "sample.pdf";
        EvGetConverter "markitdown"],
       Raise refused)
  /\ PDFStract.convert_async (PDFStract.over markdown_only_factory) "sample.pdf"
       "markitdown" "json" world_configured
    = ([EvPathExists "sample.pdf"; EvGetConverter "markitdown";
        EvGetConverter "markitdown"],
       Raise refused).
Proof.
  apply (X7_unsupported_format_is_a_failed_conversion world_configured
           markdown_only_factory "sample.pdf" "markitdown" "json" JSON
           markdown_only_converter); reflexivity.
Defined.

(** ** Batches that cannot start *)

(** X8.  A batch over a directory that does not exist raises a [ValueError]
    that names the directory; the run stops at that test: nothing is
    listed, no backend is resolved, whatever the factory is. *)
Theorem X8_batch_of_a_missing_directory
    (w : World) (self : PDFStract.t) (pdf_directory library output_format : string)
    (parallel_workers : Z) :
  fs_exists w pdf_directory = false ->
  PDFStract.batch_convert self pdf_directory library output_format parallel_workers w
    = ([EvPathExists pdf_directory],
       Raise (ValueError ("Directory not found: " +:+ pdf_directory))).
Proof.
  intros Hex. unfold PDFStract.batch_convert. run_unfold. simpl.
  rewrite Hex. reflexivity.
Qed.

(** X8 on a directory the working directory does not have. *)
Lemma X8_batch_of_a_missing_directory_witness :
  PDFStract.batch_convert example_api "scans" "marker" "markdown" 2 world_configured
    = ([EvPathExists "scans"], Raise (ValueError "Directory not found: scans")).
Proof.
  apply (X8_batch_of_a_missing_directory world_configured example_api
           "scans" "marker" "markdown" 2).
  reflexivity.
Defined.

(** The run of a batch up to the resolution of the backend, over a
    directory that holds PDF files. *)
Lemma batch_convert_resolved
    (w : World) (factory : OCRFactory.t) (pdf_directory library output_format : string)
    (parallel_workers : Z) :
  fs_exists w pdf_directory = true ->
  fs_glob_pdf w pdf_directory <> [] ->
  PDFStract.batch_convert (PDFStract.over factory) pdf_directory library
    output_format parallel_workers w
  = match dict_get library (OCRFactory._converters factory) with
    | None =>
        ([EvPathExists pdf_directory; EvGlob pdf_directory; EvGetConverter library],
         Raise (BackendNotFound library (dict_keys (OCRFactory._converters factory))))
    | Some _ =>
        let rest :=
          (output_format_enum <- lift_result (OutputFormat_call output_format) ;;
           PDFStract.ThreadPoolExecutor parallel_workers ;;
           futures <- list_comp
                        (PDFStract.convert_pdf (PDFStract.over factory) library
                           output_format_enum)
                        (sorted (fs_glob_pdf w pdf_directory)) ;;
           ret (fold_left collect futures
                  {| success := 0; failed := 0; results := ∅ |})) w in
        ([EvPathExists pdf_directory; EvGlob pdf_directory; EvGetConverter library]
           ++ fst rest,
         snd rest)
    end.
Proof.
  intros Hex Hne.
  pose proof (sorted_Permutation (fs_glob_pdf w pdf_directory)) as Hperm.
  unfold PDFStract.batch_convert.
  cbn [PDFStract.over PDFStract._factory OCRFactory.as_factory
       ConverterFactory.get_converter].
  unfold bind at 1. unfold Path_exists at 1. unfold bind at 1, tell at 1, ask at 1.
  cbn beta iota. rewrite Hex. cbn [negb app].
  unfold bind at 1. unfold Path_glob_pdf at 1. unfold bind at 1, tell at 1, ask at 1.
  cbn beta iota. cbn [app].
  destruct (sorted (fs_glob_pdf w pdf_directory)) as [|f0 rest0] eqn:Hsorted.
  - exfalso. apply Hne. apply Permutation_nil. exact Hperm.
  - unfold bind at 1. rewrite get_converter_run.
    destruct (dict_get library (OCRFactory._converters factory)) as [c|].
    + cbn beta iota zeta.
      match goal with
      | |- (let '(t', r) := let '(t0, r0) := (let '(t1, r1) := ?run in _) in _ in _) = _ =>
          destruct run as [t1 r1]
      end.
      reflexivity.
    + reflexivity.
Qed.

(** X9.  A batch over a directory that holds PDF files, for a backend the
    registry does not know, raises the error that lists the available
    backends; the batch is given up as a whole: no file is converted and no
    entry is recorded. *)
Theorem X9_batch_with_an_unknown_backend
    (w : World) (factory : OCRFactory.t) (pdf_directory library output_format : string)
    (parallel_workers : Z) :
  fs_exists w pdf_directory = true ->
  fs_glob_pdf w pdf_directory <> [] ->
  dict_get library (OCRFactory._converters factory) = None ->
  PDFStract.batch_convert (PDFStract.over factory) pdf_directory library
    output_format parallel_workers w
  = ([EvPathExists pdf_directory; EvGlob pdf_directory; EvGetConverter library],
     Raise (BackendNotFound library (dict_keys (OCRFactory._converters factory)))).
Proof.
  intros Hex Hne Hget.
  rewrite (batch_convert_resolved w factory pdf_directory library output_format
             parallel_workers Hex Hne).
  rewrite Hget. reflexivity.
Qed.

(** X9 on the directory of five files. *)
Lemma X9_batch_with_an_unknown_backend_witness :
  PDFStract.batch_convert example_api "pdfs" "docling" "markdown" 2 world_configured
  = ([EvPathExists "pdfs"; EvGlob "pdfs"; EvGetConverter "docling"],
     Raise (BackendNotFound "docling" ["pymupdf4llm"; "marker"])).
Proof.
  apply (X9_batch_with_an_unknown_backend world_configured
           (built_factory world_configured) "pdfs" "docling" "markdown" 2).
  - reflexivity.
  - discriminate.
  - vm_compute. reflexivity.
Defined.

(** X10.  In a batch, a format value that the enumeration refuses ends the
    whole call with the error of the enumeration as it is: it is not
    recorded per file and not wrapped as a failed conversion, and no file is
    converted. *)
Theorem X10_batch_with_an_invalid_format_value
    (w : World) (factory : OCRFactory.t) (pdf_directory library output_format : string)
    (parallel_workers : Z) (converter : PDFConverter.t) (e : PyExc) :
  fs_exists w pdf_directory = true ->
  fs_glob_pdf w pdf_directory <> [] ->
  dict_get library (OCRFactory._converters factory) = Some converter ->
  OutputFormat_call output_format = Raise e ->
  PDFStract.batch_convert (PDFStract.over factory) pdf_directory library
    output_format parallel_workers w
  = ([EvPathExists pdf_directory; EvGlob pdf_directory; EvGetConverter library],
     Raise e).
Proof.
  intros Hex Hne Hget Hfmt.
  rewrite (batch_convert_resolved w factory pdf_directory library output_format
             parallel_workers Hex Hne).
  rewrite Hget. unfold bind at 1, lift_result. rewrite Hfmt. reflexivity.
Qed.

(** X10 on a format value that is no member of the enumeration. *)
Lemma X10_batch_with_an_invalid_format_value_witness :
  PDFStract.batch_convert example_api "pdfs" "marker" "docx" 2 world_configured
  = ([EvPathExists "pdfs"; EvGlob "pdfs"; EvGetConverter "marker"],
     Raise (ValueError "'docx' is not a valid OutputFormat")).
Proof.
  apply (X10_batch_with_an_invalid_format_value world_configured
           (built_factory world_configured) "pdfs" "marker" "docx" 2
           (example_converter "marker" true ["pdfs/c.pdf"])).
  - reflexivity.
  - discriminate.
  - vm_compute. reflexivity.
  - reflexivity.
Defined.

(** X11.  A batch over a directory that holds PDF files, asked for a pool
    of no worker (or of a negative number), raises the [ValueError] of the
    pool once the backend and the format are accepted; no file is
    converted. *)
Theorem X11_batch_without_workers
    (w : World) (factory : OCRFactory.t) (pdf_directory library output_format : string)
    (parallel_workers : Z) (converter : PDFConverter.t) (fmt : OutputFormat) :
  fs_exists w pdf_directory = true ->
  fs_glob_pdf w pdf_directory <> [] ->
  dict_get library (OCRFactory._converters factory) = Some converter ->
  OutputFormat_call output_format = Ok fmt ->
  (parallel_workers <= 0)%Z ->
  PDFStract.batch_convert (PDFStract.over factory) pdf_directory library
    output_format parallel_workers w
  = ([EvPathExists pdf_directory; EvGlob pdf_directory; EvGetConverter library],
     Raise (ValueError "max_workers must be greater than 0")).
Proof.
  intros Hex Hne Hget Hfmt Hworkers.
  rewrite (batch_convert_resolved w factory pdf_directory library output_format
             parallel_workers Hex Hne).
  rewrite Hget. unfold bind at 1, lift_result. rewrite Hfmt.
  unfold bind at 1, PDFStract.ThreadPoolExecutor.
  rewrite (proj2 (Z.leb_le parallel_workers 0) Hworkers). reflexivity.
Qed.

(** X11 on the directory of five files, with no worker. *)
Lemma X11_batch_without_workers_witness :
  PDFStract.batch_convert example_api "pdfs" "marker" "markdown" 0 world_configured
  = ([EvPathExists "pdfs"; EvGlob "pdfs"; EvGetConverter "marker"],
     Raise (ValueError "max_workers must be greater than 0")).
Proof.
  apply (X11_batch_without_workers world_configured
           (built_factory world_configured) "pdfs" "marker" "markdown" 0
           (example_converter "marker" true ["pdfs/c.pdf"]) MARKDOWN).
  - reflexivity.
  - discriminate.
  - vm_compute. reflexivity.
  - reflexivity.
  - lia.
Defined.

(** ** The combined pipeline: the chunking step *)

(** X12.  After an extraction that returned [v], and with chunker
    parameters that bind (no key is "text", "chunker" or "self"), the
    combined pipeline ends as the chunking of [str(v)] ends: when the
    chunking raises, the call raises the same exception and the extracted
    content is lost; when it returns, the result holds the extracted content
    as it was returned (a dict stays a dict) beside the chunking result. *)
Theorem X12_pipeline_ends_as_the_chunking_ends
    (w : World) (self : PDFStract.t) (pdf_path library chunker output_format : string)
    (chunker_params : option (list (string * PyVal)))
    (t t' : list Event) (v : PyVal) (r : Result PyVal) :
  PDFStract.convert_async self pdf_path library output_format w = (t, Ok v) ->
  plain_params (PDFStract.or_empty chunker_params) = true ->
  PDFStract.chunk_text_async self (py_str v) chunker
    (PDFStract.or_empty chunker_params) w = (t', r) ->
  let ending :=
    match r with
    | Ok chunking_result =>
        Ok (PyDict [ ("extracted_content", v);
                     ("chunking_result", chunking_result) ])
    | Raise e => Raise e
    end in
  PDFStract.convert_chunk_async self pdf_path library chunker output_format
    chunker_params w = (t ++ t', ending)
  /\ PDFStract.convert_chunk self pdf_path library chunker output_format
       chunker_params w = (t ++ t', ending).
Proof.
  intros Hok Hplain Hchunk ending. unfold PDFStract.convert_chunk, asyncio_run.
  rewrite !convert_chunk_async_run, Hok, or_empty_idempotent.
  rewrite (call_chunk_text_async_plain w self _ chunker _ Hplain).
  cbn zeta. rewrite Hchunk. subst ending. destruct r; split; reflexivity.
Qed.

(** X12 on a chunker that is not available, asked with a chunk size after a
    good extraction. *)
Lemma X12_pipeline_ends_as_the_chunking_ends_witness :
  let t := [EvPathExists "sample.pdf"; EvGetConverter "marker";
            EvGetConverter "marker"; EvBackend "marker" MARKDOWN "sample.pdf"] in
  let chunker_params := Some [("chunk_size", PyInt 100)] in
  let ending : Result PyVal :=
    Raise (ChunkerNotAvailable "semantic" ["token"; "sentence"]) in
  PDFStract.convert_chunk_async example_api "sample.pdf" "marker" "semantic"
    "markdown" chunker_params world_configured = (t ++ [EvListChunkers], ending)
  /\ PDFStract.convert_chunk example_api "sample.pdf" "marker" "semantic"
       "markdown" chunker_params world_configured = (t ++ [EvListChunkers], ending).
Proof.
  intros t chunker_params ending.
  apply (X12_pipeline_ends_as_the_chunking_ends world_configured example_api
           "sample.pdf" "marker" "semantic" "markdown" chunker_params
           t [EvListChunkers] (PyStr "# sample.pdf")
           (Raise (ChunkerNotAvailable "semantic" ["token"; "sentence"])));
    vm_compute; reflexivity.
Defined.

Lemma chunk_text_async_blank
    (w : World) (self : PDFStract.t) (text chunker name : string)
    (kwargs : list (string * PyVal)) :
  resolved_chunker (get_chunker_factory w) chunker = Some name ->
  name ∈ ChunkerFactory.list_available_chunkers (get_chunker_factory w) ->
  blank text = true ->
  PDFStract.chunk_text_async self text chunker kwargs w
    = (resolution_trace chunker, Raise EmptyInput).
Proof.
  intros Hres Hin Hblank.
  unfold PDFStract.chunk_text_async, resolved_chunker, resolution_trace in *.
  fold (blank text). run_unfold. simpl.
  destruct (String.eqb chunker "auto").
  - destruct (ChunkerFactory.get_default_chunker (get_chunker_factory w)) as [inst|];
      simpl in *; [|discriminate].
    injection Hres as <-.
    rewrite bool_decide_eq_false_2 by (intros Hn; exact (Hn Hin)).
    rewrite Hblank. reflexivity.
  - injection Hres as <-. simpl.
    rewrite bool_decide_eq_false_2 by (intros Hn; exact (Hn Hin)).
    rewrite Hblank. reflexivity.
Qed.

(** X13.  When the extraction returns a text that is empty or white space
    only (a PDF without a text layer), the combined pipeline raises "Text
    cannot be empty" for a chunker that is available and chunker parameters
    that bind (no key is "text", "chunker" or "self"): the extracted content
    is not returned, and the chunker is not called. *)
Theorem X13_pipeline_on_a_blank_extraction
    (w : World) (self : PDFStract.t) (pdf_path library chunker output_format : string)
    (chunker_params : option (list (string * PyVal)))
    (t : list Event) (v : PyVal) (name : string) :
  PDFStract.convert_async self pdf_path library output_format w = (t, Ok v) ->
  plain_params (PDFStract.or_empty chunker_params) = true ->
  blank (py_str v) = true ->
  resolved_chunker (get_chunker_factory w) chunker = Some name ->
  name ∈ ChunkerFactory.list_available_chunkers (get_chunker_factory w) ->
  PDFStract.convert_chunk_async self pdf_path library chunker output_format
    chunker_params w = (t ++ resolution_trace chunker, Raise EmptyInput)
  /\ PDFStract.convert_chunk self pdf_path library chunker output_format
       chunker_params w = (t ++ resolution_trace chunker, Raise EmptyInput).
Proof.
  intros Hok Hplain Hblank Hres Hin. unfold PDFStract.convert_chunk, asyncio_run.
  rewrite !convert_chunk_async_run, Hok, or_empty_idempotent.
  rewrite (call_chunk_text_async_plain w self _ chunker _ Hplain). cbn zeta.
  rewrite (chunk_text_async_blank w self (py_str v) chunker name _ Hres Hin Hblank).
  split; reflexivity.
Qed.

(** X13 on a backend that returns a line feed and a space. *)
Lemma X13_pipeline_on_a_blank_extraction_witness :
  let t := [EvPathExists "sample.pdf"; EvGetConverter "pytesseract";
            EvGetConverter "pytesseract";
            EvBackend "pytesseract" MARKDOWN "sample.pdf"] in
  let chunker_params := Some [("chunk_size", PyInt 100)] in
  PDFStract.convert_chunk_async blank_api "sample.pdf" "pytesseract" "auto"
    "markdown" chunker_params world_configured
    = (t ++ resolution_trace "auto", Raise EmptyInput)
  /\ PDFStract.convert_chunk blank_api "sample.pdf" "pytesseract" "auto"
       "markdown" chunker_params world_configured
     = (t ++ resolution_trace "auto", Raise EmptyInput).
Proof.
  intros t chunker_params.
  apply (X13_pipeline_on_a_blank_extraction world_configured blank_api
           "sample.pdf" "pytesseract" "auto" "markdown" chunker_params t
           (PyStr (String "010" " ")) "token").
  - vm_compute. reflexivity.
  - reflexivity.
  - reflexivity.
  - reflexivity.
  - apply (bool_decide_unpack _). vm_compute. exact I.
Defined.

(** a key that is the name of a parameter is a key that does not bind *)
Lemma plain_params_reserved (kwargs : list (string * PyVal)) (key : string) :
  In key (dict_keys kwargs) ->
  In key ["text"; "chunker"; "self"] ->
  plain_params kwargs = false.
Proof.
  intros Hkey Hname.
  destruct (plain_params kwargs) eqn:Hplain; [|reflexivity].
  unfold plain_params in Hplain.
  pose proof (proj1 (forallb_forall _ _) Hplain key Hkey) as Hneg.
  destruct Hname as [<-|[<-|[<-|[]]]]; discriminate Hneg.
Qed.

(** X25.  After an extraction that returned, chunker parameters with a key
    "text", "chunker" or "self" end the combined pipeline with a
    [TypeError], raised where [chunk_text_async] is called with them: the
    trace is that of the extraction alone, so the chunker factory is not
    asked and nothing is chunked, and the extracted content is lost. *)
Theorem X25_pipeline_refuses_parameter_names
    (w : World) (self : PDFStract.t) (pdf_path library chunker output_format : string)
    (chunker_params : list (string * PyVal)) (key : string)
    (t : list Event) (v : PyVal) :
  PDFStract.convert_async self pdf_path library output_format w = (t, Ok v) ->
  In key (dict_keys chunker_params) ->
  In key ["text"; "chunker"; "self"] ->
  exists msg : string,
    PDFStract.convert_chunk_async self pdf_path library chunker output_format
      (Some chunker_params) w = (t, Raise (OtherError "TypeError" msg))
    /\ PDFStract.convert_chunk self pdf_path library chunker output_format
         (Some chunker_params) w = (t, Raise (OtherError "TypeError" msg)).
Proof.
  intros Hok Hkey Hname.
  assert (Hsame : PDFStract.or_empty (Some chunker_params) = chunker_params)
    by (destruct chunker_params; reflexivity).
  pose proof (plain_params_reserved chunker_params key Hkey Hname) as Hplain.
  destruct (call_chunk_text_async_refuses w self (py_str v) chunker chunker_params Hplain)
    as [msg Hcall].
  exists msg. unfold PDFStract.convert_chunk, asyncio_run.
  rewrite !convert_chunk_async_run, Hok, or_empty_idempotent, Hsame.
  cbn zeta. rewrite Hcall. cbn [fst snd]. rewrite app_nil_r.
  split; reflexivity.
Qed.

(** X25 on parameters that give the text a second time. *)
Lemma X25_pipeline_refuses_parameter_names_witness :
  let t := [EvPathExists "sample.pdf"; EvGetConverter "marker";
            EvGetConverter "marker"; EvBackend "marker" MARKDOWN "sample.pdf"] in
  let chunker_params := [("chunk_size", PyInt 100); ("text", PyStr "other")] in
  exists msg : string,
    PDFStract.convert_chunk_async example_api "sample.pdf" "marker" "token"
      "markdown" (Some chunker_params) world_configured
      = (t, Raise (OtherError "TypeError" msg))
    /\ PDFStract.convert_chunk example_api "sample.pdf" "marker" "token"
         "markdown" (Some chunker_params) world_configured
       = (t, Raise (OtherError "TypeError" msg)).
Proof.
  intros t chunker_params.
  apply (X25_pipeline_refuses_parameter_names world_configured example_api
           "sample.pdf" "marker" "token" "markdown" chunker_params "text"
           t (PyStr "# sample.pdf")).
  - vm_compute. reflexivity.
  - right. left. reflexivity.
  - left. reflexivity.
Defined.

Example pipeline_with_a_text_parameter :
  snd (PDFStract.convert_chunk example_api "sample.pdf" "marker" "token" "markdown"
         (Some [("chunk_size", PyInt 100); ("text", PyStr "other")]) world_configured)
  = Raise (OtherError "TypeError"
             ("pdfstract.api.PDFStract.chunk_text_async() got multiple values "
                +:+ "for keyword argument 'text'")).
Proof. vm_compute. reflexivity. Qed.

Example pipeline_with_a_self_parameter :
  snd (PDFStract.convert_chunk example_api "sample.pdf" "marker" "token" "markdown"
         (Some [("self", PyNone)]) world_configured)
  = Raise (OtherError "TypeError"
             "PDFStract.chunk_text_async() got multiple values for argument 'self'").
Proof. vm_compute. reflexivity. Qed.

(** ** Looking a converter up in the listing *)

Lemma next_named_listing
    (w : World) (registered enabled : string -> bool) (library : string)
    (names : list string) :
  PDFStract.next_named library
    (map (fun name => listing (registered name) (enabled name) name) names) w
  = ([], Ok (if bool_decide (library ∈ names)
             then Some (listing (registered library) (enabled library) library)
             else None)).
Proof.
  induction names as [|n names IH].
  - reflexivity.
  - cbn [map PDFStract.next_named]. unfold bind, lift_result.
    cbn [listing py_getitem dict_get]. cbn [String.eqb Ascii.eqb Bool.eqb andb].
    cbn [py_eq_str].
    destruct (String.eqb_spec n library) as [->|Hne].
    + rewrite bool_decide_eq_true_2 by left. reflexivity.
    + rewrite IH. unfold ret. cbn [app].
      destruct (bool_decide (library ∈ names)) eqn:Hin.
      * apply bool_decide_eq_true in Hin.
        rewrite bool_decide_eq_true_2 by (right; exact Hin). reflexivity.
      * apply bool_decide_eq_false in Hin.
        rewrite bool_decide_eq_false_2; [reflexivity|].
        intros Hc. apply elem_of_cons in Hc as [Hc|Hc]; [congruence|contradiction].
Qed.

(** X14.  Over a registry that a build left, [get_converter_info] returns
    the record of the listing for each of the eight names of the listing,
    and [None] for any other name, be it the name of a converter that is
    registered; it does not raise for want of a key. *)
Theorem X14_get_converter_info_of_a_built_registry
    (w : World) (libs : list string) (library : string) :
  db_get_enabled_libraries w = Ok libs ->
  snd (PDFStract.get_converter_info (PDFStract.over (built_factory w)) library w)
  = Ok (if bool_decide (library ∈ listed_names)
        then Some (listing
                     (bool_decide
                        (is_Some (dict_get library
                                    (OCRFactory._converters (built_factory w)))))
                     (bool_decide (library ∈ libs)) library)
        else None).
Proof.
  intros Hdb. unfold PDFStract.get_converter_info, PDFStract.list_libraries.
  cbn [PDFStract.over PDFStract._factory OCRFactory.as_factory
       ConverterFactory.list_all_converters].
  unfold bind.
  pose proof (list_all_converters_built w libs Hdb) as Hall.
  destruct (OCRFactory.list_all_converters (built_factory w) w) as [t r].
  cbn [snd] in Hall. subst r.
  rewrite (next_named_listing w
             (fun name => bool_decide
                (is_Some (dict_get name (OCRFactory._converters (built_factory w)))))
             (fun name => bool_decide (name ∈ libs)) library listed_names).
  reflexivity.
Qed.

(** X14 on a name of the listing that is registered. *)
Lemma X14_get_converter_info_of_a_built_registry_witness :
  snd (PDFStract.get_converter_info example_api "marker" world_configured)
  = Ok (if bool_decide ("marker" ∈ listed_names)
        then Some (listing
                     (bool_decide
                        (is_Some (dict_get "marker"
                                    (OCRFactory._converters
                                       (built_factory world_configured)))))
                     (bool_decide ("marker" ∈ ["pymupdf4llm"; "marker"])) "marker")
        else None).
Proof.
  apply (X14_get_converter_info_of_a_built_registry world_configured
           ["pymupdf4llm"; "marker"] "marker").
  reflexivity.
Defined.

(** ** The MinerU backend *)

Ltac mineru_unfold :=
  unfold MinerUConverter.convert_to_text, MinerUConverter.convert_to_json,
    MinerUConverter.convert_to_md, MinerUConverter.available,
    MinerUConverter._convert_sync, MinerUConverter.first_existing_md,
    MinerUConverter.exists_after, MinerUConverter.read_text_after,
    mineru_cmd, mineru_nested_md, mineru_flat_md, mineru_cli_error in *;
  run_unfold.

(** When the CLI is installed, [convert_to_md] returns what [_convert_sync]
    returns and wraps what it raises. *)
Lemma mineru_convert_to_md_available
    (w : World) (self : MinerUConverter.t) (file_path : string) :
  MINERU_AVAILABLE w = true ->
  snd (MinerUConverter.convert_to_md self file_path w)
  = match snd (MinerUConverter._convert_sync self file_path "markdown" w) with
    | Ok content => Ok content
    | Raise e => Raise (RuntimeError ("MinerU conversion failed: " +:+ str_exc e))
    end.
Proof.
  intros Hav. unfold MinerUConverter.convert_to_md, MinerUConverter.available.
  run_unfold. simpl. rewrite Hav. simpl.
  destruct (MinerUConverter._convert_sync self file_path "markdown" w) as [t [c|e]];
    reflexivity.
Qed.

Lemma mineru_convert_unavailable
    (w : World) (self : MinerUConverter.t) (file_path : string) :
  MINERU_AVAILABLE w = false ->
  MinerUConverter.convert_to_md self file_path w
    = ([], Raise (RuntimeError "MinerU is not available"))
  /\ MinerUConverter.convert_to_json self file_path w
    = ([], Raise (RuntimeError "MinerU is not available"))
  /\ MinerUConverter.convert_to_text self file_path w
    = ([], Raise (RuntimeError "MinerU is not available")).
Proof.
  intros Hav. mineru_unfold. simpl. rewrite Hav. simpl. repeat split.
Qed.

(** X15.  When the MinerU CLI is not installed, the three conversion
    methods raise [RuntimeError("MinerU is not available")] at once: no
    file is looked at, no process is run, nothing is logged. *)
Theorem X15_mineru_not_installed
    (w : World) (self : MinerUConverter.t) (file_path : string) :
  MINERU_AVAILABLE w = false ->
  MinerUConverter.convert_to_md self file_path w
    = ([], Raise (RuntimeError "MinerU is not available"))
  /\ MinerUConverter.convert_to_json self file_path w
    = ([], Raise (RuntimeError "MinerU is not available"))
  /\ MinerUConverter.convert_to_text self file_path w
    = ([], Raise (RuntimeError "MinerU is not available")).
Proof. exact (mineru_convert_unavailable w self file_path). Qed.

(** X15 where the CLI is missing. *)
Lemma X15_mineru_not_installed_witness :
  let w := mineru_world false mineru_ok [] [] in
  MinerUConverter.convert_to_md MinerUConverter.__init__ "sample.pdf" w
    = ([], Raise (RuntimeError "MinerU is not available"))
  /\ MinerUConverter.convert_to_json MinerUConverter.__init__ "sample.pdf" w
    = ([], Raise (RuntimeError "MinerU is not available"))
  /\ MinerUConverter.convert_to_text MinerUConverter.__init__ "sample.pdf" w
    = ([], Raise (RuntimeError "MinerU is not available")).
Proof.
  intros w.
  apply (X15_mineru_not_installed w MinerUConverter.__init__ "sample.pdf").
  reflexivity.
Defined.

Lemma mineru_convert_to_md_raises
    (w : World) (self : MinerUConverter.t) (file_path : string) (e : PyExc) :
  snd (MinerUConverter.convert_to_md self file_path w) = Raise e ->
  e = RuntimeError "MinerU is not available"
  \/ exists cause : PyExc,
       snd (MinerUConverter._convert_sync self file_path "markdown" w) = Raise cause
       /\ e = RuntimeError ("MinerU conversion failed: " +:+ str_exc cause).
Proof.
  destruct (MINERU_AVAILABLE w) eqn:Hav.
  - rewrite (mineru_convert_to_md_available w self file_path Hav).
    destruct (snd (MinerUConverter._convert_sync self file_path "markdown" w))
      as [c|cause]; [discriminate|].
    intros H. injection H as <-. right. exists cause. split; reflexivity.
  - destruct (mineru_convert_unavailable w self file_path Hav) as [Hmd _].
    rewrite Hmd. simpl. intros H. injection H as <-. left. reflexivity.
Qed.

(** [convert_to_json] is [convert_to_md] with its text put in a record;
    [convert_to_text] is [convert_to_md] followed by the substitutions. *)
Lemma mineru_convert_to_json_run
    (w : World) (self : MinerUConverter.t) (file_path : string) :
  MinerUConverter.convert_to_json self file_path w
  = run_map
      (fun md_content =>
         PyDict [ ("content", PyStr md_content);
                  ("format", PyStr "markdown");
                  ("library", PyStr "mineru") ])
      (MinerUConverter.convert_to_md self file_path w).
Proof.
  destruct (MINERU_AVAILABLE w) eqn:Hav.
  - unfold MinerUConverter.convert_to_json. unfold bind at 1.
    unfold MinerUConverter.available at 1, ask at 1. rewrite Hav. cbn [negb app].
    unfold bind, await, ret.
    destruct (MinerUConverter.convert_to_md self file_path w) as [t [md|e]];
      simpl; rewrite ?app_nil_r; reflexivity.
  - destruct (mineru_convert_unavailable w self file_path Hav) as (Hmd & Hjson & _).
    rewrite Hmd, Hjson. reflexivity.
Qed.

Lemma mineru_convert_to_text_run
    (w : World) (self : MinerUConverter.t) (file_path : string) :
  MinerUConverter.convert_to_text self file_path w
  = run_map (re_sub_markdown w) (MinerUConverter.convert_to_md self file_path w).
Proof.
  unfold MinerUConverter.convert_to_text, bind, await, ask, ret.
  destruct (MinerUConverter.convert_to_md self file_path w) as [t [md|e]];
    simpl; rewrite ?app_nil_r; reflexivity.
Qed.

(** X16.  Whatever goes wrong, the three conversion methods of the MinerU
    backend raise a [RuntimeError] and nothing else: either "MinerU is not
    available", or "MinerU conversion failed: " followed by the message of
    what [_convert_sync] raised. *)
Theorem X16_mineru_raises_runtime_errors_only
    (w : World) (self : MinerUConverter.t) (file_path : string) (e : PyExc) :
  snd (MinerUConverter.convert_to_md self file_path w) = Raise e
  \/ snd (MinerUConverter.convert_to_json self file_path w) = Raise e
  \/ snd (MinerUConverter.convert_to_text self file_path w) = Raise e ->
  e = RuntimeError "MinerU is not available"
  \/ exists cause : PyExc,
       snd (MinerUConverter._convert_sync self file_path "markdown" w) = Raise cause
       /\ e = RuntimeError ("MinerU conversion failed: " +:+ str_exc cause).
Proof.
  intros Hraise. apply (mineru_convert_to_md_raises w self file_path e).
  destruct Hraise as [H|[H|H]]; [exact H| |].
  - rewrite mineru_convert_to_json_run in H.
    destruct (MinerUConverter.convert_to_md self file_path w) as [t [md|e0]];
      simpl in *; [discriminate | injection H as <-; reflexivity].
  - rewrite mineru_convert_to_text_run in H.
    destruct (MinerUConverter.convert_to_md self file_path w) as [t [md|e0]];
      simpl in *; [discriminate | injection H as <-; reflexivity].
Qed.

(** X16 where the CLI exits with an error, through [convert_to_json]. *)
Lemma X16_mineru_raises_runtime_errors_only_witness :
  let e := RuntimeError
             "MinerU conversion failed: MinerU CLI failed: layout model missing" in
  e = RuntimeError "MinerU is not available"
  \/ exists cause : PyExc,
       snd (MinerUConverter._convert_sync MinerUConverter.__init__ "sample.pdf"
              "markdown" world_configured) = Raise cause
       /\ e = RuntimeError ("MinerU conversion failed: " +:+ str_exc cause).
Proof.
  intros e.
  apply (X16_mineru_raises_runtime_errors_only world_configured
           MinerUConverter.__init__ "sample.pdf" e).
  right. left. vm_compute. reflexivity.
Defined.

(** X17.  [convert_to_json] is [convert_to_md] with the markdown put under
    "content" in a record that names the format and the library: the same
    trace, the same exception when it raises, also when the CLI is not
    installed. *)
Theorem X17_mineru_json_wraps_markdown
    (w : World) (self : MinerUConverter.t) (file_path : string) :
  MinerUConverter.convert_to_json self file_path w
  = match MinerUConverter.convert_to_md self file_path w with
    | (t, Ok md_content) =>
        (t, Ok (PyDict [ ("content", PyStr md_content);
                         ("format", PyStr "markdown");
                         ("library", PyStr "mineru") ]))
    | (t, Raise e) => (t, Raise e)
    end.
Proof.
  rewrite mineru_convert_to_json_run.
  destruct (MinerUConverter.convert_to_md self file_path w) as [t [md|e]]; reflexivity.
Qed.

Lemma mineru_convert_sync_input_missing
    (w : World) (self : MinerUConverter.t) (file_path output_format : string) :
  fs_exists w (fs_resolve w file_path) = false ->
  MinerUConverter._convert_sync self file_path output_format w
    = ([EvPathExists (fs_resolve w file_path)],
       Raise (RuntimeError ("MinerU: Input file not found: " +:+ file_path))).
Proof.
  intros Hex. mineru_unfold. simpl. rewrite Hex. reflexivity.
Qed.

(** X18.  When the CLI is installed and the resolved input path does not
    exist, [convert_to_md] raises a [RuntimeError] that names the path as it
    was given; the CLI is not run. *)
Theorem X18_mineru_input_not_found
    (w : World) (self : MinerUConverter.t) (file_path : string) :
  MINERU_AVAILABLE w = true ->
  fs_exists w (fs_resolve w file_path) = false ->
  MinerUConverter.convert_to_md self file_path w
    = ([EvPathExists (fs_resolve w file_path);
        EvLog ERROR ("MinerU: Conversion failed: MinerU: Input file not found: "
                       +:+ file_path)],
       Raise (RuntimeError ("MinerU conversion failed: MinerU: Input file not found: "
                              +:+ file_path))).
Proof.
  intros Hav Hex.
  rewrite (mineru_convert_to_md_wraps w self file_path _ _ Hav
             (mineru_convert_sync_input_missing w self file_path "markdown" Hex)).
  reflexivity.
Qed.

(** X18 on a file the working directory does not have. *)
Lemma X18_mineru_input_not_found_witness :
  MinerUConverter.convert_to_md MinerUConverter.__init__ "missing.pdf" world_configured
    = ([EvPathExists (fs_resolve world_configured "missing.pdf");
        EvLog ERROR ("MinerU: Conversion failed: MinerU: Input file not found: "
                       +:+ "missing.pdf")],
       Raise (RuntimeError ("MinerU conversion failed: MinerU: Input file not found: "
                              +:+ "missing.pdf"))).
Proof.
  apply (X18_mineru_input_not_found world_configured MinerUConverter.__init__
           "missing.pdf"); reflexivity.
Defined.

(** The end of [_convert_sync] once the input is found, by how the CLI run
    ends and what it leaves. *)
Lemma mineru_convert_sync_result
    (w : World) (self : MinerUConverter.t) (file_path output_format : string) :
  fs_exists w (fs_resolve w file_path) = true ->
  snd (MinerUConverter._convert_sync self file_path output_format w)
  = match subprocess_run w (mineru_cmd w file_path) with
    | Raise e => Raise e
    | Ok result =>
        if negb (returncode result =? 0)%Z then
          Raise (RuntimeError ("MinerU CLI failed: " +:+ mineru_cli_error result))
        else
          match after_run_read_text w (mineru_cmd w file_path)
                  (mineru_nested_md w file_path) with
          | Some r => r
          | None =>
              match after_run_read_text w (mineru_cmd w file_path)
                      (mineru_flat_md w file_path) with
              | Some r => r
              | None =>
                  match after_run_rglob_md w (mineru_cmd w file_path)
                          (path_join (mkdtemp w) "mineru_out") with
                  | first :: _ => mineru_read_text w file_path first
                  | [] => Raise (RuntimeError "MinerU: No markdown output generated")
                  end
              end
          end
    end.
Proof.
  intros Hex. unfold mineru_read_text. mineru_unfold. simpl. rewrite Hex. simpl.
  destruct (subprocess_run w _) as [result|e]; [|reflexivity]. simpl.
  destruct (returncode result =? 0)%Z; simpl; [|reflexivity].
  repeat match goal with
         | H : after_run_read_text w ?c ?p = _
           |- context [after_run_read_text w ?c ?p] => rewrite H; simpl
         | H : after_run_rglob_md w ?c ?p = _
           |- context [after_run_rglob_md w ?c ?p] => rewrite H; simpl
         | |- context [after_run_read_text w ?c ?p] =>
             destruct (after_run_read_text w c p) as [[?|?]|] eqn:?; simpl
         | |- context [after_run_rglob_md w ?c ?p] =>
             destruct (after_run_rglob_md w c p) as [|? ?] eqn:?; simpl
         end;
    reflexivity.
Qed.

(** X19.  When the CLI exits with a status other than 0, [convert_to_md]
    raises "MinerU conversion failed: MinerU CLI failed: " followed by what
    the CLI wrote to its error stream, or else to its output stream, or else
    by its exit code; the output directory is not read. *)
Theorem X19_mineru_cli_exit_status
    (w : World) (self : MinerUConverter.t) (file_path : string)
    (result : CompletedProcess) :
  MINERU_AVAILABLE w = true ->
  fs_exists w (fs_resolve w file_path) = true ->
  subprocess_run w (mineru_cmd w file_path) = Ok result ->
  returncode result <> 0%Z ->
  snd (MinerUConverter.convert_to_md self file_path w)
    = Raise (RuntimeError ("MinerU conversion failed: MinerU CLI failed: "
                             +:+ mineru_cli_error result))
  /\ (stderr result <> "" -> mineru_cli_error result = stderr result)
  /\ (stderr result = "" -> stdout result <> "" ->
      mineru_cli_error result = stdout result)
  /\ (stderr result = "" -> stdout result = "" ->
      mineru_cli_error result = "Exit code " +:+ repr_int (returncode result)).
Proof.
  intros Hav Hex Hrun Hrc. split; [|split; [|split]].
  - rewrite (mineru_convert_to_md_available w self file_path Hav).
    rewrite (mineru_convert_sync_result w self file_path "markdown" Hex), Hrun.
    rewrite (proj2 (Z.eqb_neq _ _) Hrc). reflexivity.
  - unfold mineru_cli_error. destruct (stderr result); [congruence|reflexivity].
  - unfold mineru_cli_error. intros ->. simpl.
    destruct (stdout result); [congruence|reflexivity].
  - unfold mineru_cli_error. intros -> ->. reflexivity.
Qed.

(** X19 on a run that exits with 2 and writes nothing. *)
Lemma X19_mineru_cli_exit_status_witness :
  let result := {| returncode := 2; stdout := ""; stderr := "" |} in
  let w := mineru_world true (Ok result) [] [] in
  snd (MinerUConverter.convert_to_md MinerUConverter.__init__ "sample.pdf" w)
    = Raise (RuntimeError ("MinerU conversion failed: MinerU CLI failed: "
                             +:+ mineru_cli_error result))
  /\ (stderr result <> "" -> mineru_cli_error result = stderr result)
  /\ (stderr result = "" -> stdout result <> "" ->
      mineru_cli_error result = stdout result)
  /\ (stderr result = "" -> stdout result = "" ->
      mineru_cli_error result = "Exit code " +:+ repr_int (returncode result)).
Proof.
  intros result w.
  apply (X19_mineru_cli_exit_status w MinerUConverter.__init__ "sample.pdf" result);
    [reflexivity | reflexivity | reflexivity | discriminate].
Defined.

(** X20.  When the call of the CLI itself raises (the command is missing,
    the run times out), [convert_to_md] raises "MinerU conversion failed: "
    followed by the message of that exception. *)
Theorem X20_mineru_cli_call_raises
    (w : World) (self : MinerUConverter.t) (file_path : string) (e : PyExc) :
  MINERU_AVAILABLE w = true ->
  fs_exists w (fs_resolve w file_path) = true ->
  subprocess_run w (mineru_cmd w file_path) = Raise e ->
  snd (MinerUConverter.convert_to_md self file_path w)
    = Raise (RuntimeError ("MinerU conversion failed: " +:+ str_exc e)).
Proof.
  intros Hav Hex Hrun.
  rewrite (mineru_convert_to_md_available w self file_path Hav).
  rewrite (mineru_convert_sync_result w self file_path "markdown" Hex), Hrun.
  reflexivity.
Qed.

(** X20 on a run that times out. *)
Lemma X20_mineru_cli_call_raises_witness :
  let e := OtherError "TimeoutExpired" "Command 'mineru' timed out after 600 seconds" in
  snd (MinerUConverter.convert_to_md MinerUConverter.__init__ "sample.pdf"
         (mineru_world true (Raise e) [] []))
    = Raise (RuntimeError ("MinerU conversion failed: " +:+ str_exc e)).
Proof.
  intros e.
  apply (X20_mineru_cli_call_raises (mineru_world true (Raise e) [] [])
           MinerUConverter.__init__ "sample.pdf" e); reflexivity.
Defined.

(** X21.  When the CLI exits with 0, [convert_to_md] returns the text of
    the first of these that exists: the markdown file in the directory named
    after the input, the markdown file at the top of the output directory,
    the first markdown file a search of the output directory finds.  A file
    that exists and cannot be read ends the call with an error, the next one
    is not tried; when there is no markdown file at all the call raises "No
    markdown output generated". *)
Theorem X21_mineru_output_file_order
    (w : World) (self : MinerUConverter.t) (file_path : string)
    (result : CompletedProcess) :
  MINERU_AVAILABLE w = true ->
  fs_exists w (fs_resolve w file_path) = true ->
  subprocess_run w (mineru_cmd w file_path) = Ok result ->
  returncode result = 0%Z ->
  snd (MinerUConverter.convert_to_md self file_path w)
  = mineru_wrap
      match after_run_read_text w (mineru_cmd w file_path)
              (mineru_nested_md w file_path) with
      | Some r => r
      | None =>
          match after_run_read_text w (mineru_cmd w file_path)
                  (mineru_flat_md w file_path) with
          | Some r => r
          | None =>
              match after_run_rglob_md w (mineru_cmd w file_path)
                      (path_join (mkdtemp w) "mineru_out") with
              | first :: _ => mineru_read_text w file_path first
              | [] => Raise (RuntimeError "MinerU: No markdown output generated")
              end
          end
      end.
Proof.
  intros Hav Hex Hrun Hrc.
  rewrite (mineru_convert_to_md_available w self file_path Hav).
  rewrite (mineru_convert_sync_result w self file_path "markdown" Hex), Hrun, Hrc.
  reflexivity.
Qed.

(** X21 where the run leaves both candidate files: the nested one is read. *)
Lemma X21_mineru_output_file_order_witness :
  let w := mineru_world true mineru_ok
             [ ("/tmp/tmpk3v9/mineru_out/sample.md", Ok "flat");
               ("/tmp/tmpk3v9/mineru_out/sample/sample.md", Ok "# nested") ]
             ["/tmp/tmpk3v9/mineru_out/sample.md"] in
  snd (MinerUConverter.convert_to_md MinerUConverter.__init__ "sample.pdf" w)
  = mineru_wrap
      match after_run_read_text w (mineru_cmd w "sample.pdf")
              (mineru_nested_md w "sample.pdf") with
      | Some r => r
      | None =>
          match after_run_read_text w (mineru_cmd w "sample.pdf")
                  (mineru_flat_md w "sample.pdf") with
          | Some r => r
          | None =>
              match after_run_rglob_md w (mineru_cmd w "sample.pdf")
                      (path_join (mkdtemp w) "mineru_out") with
              | first :: _ => mineru_read_text w "sample.pdf" first
              | [] => Raise (RuntimeError "MinerU: No markdown output generated")
              end
          end
      end.
Proof.
  intros w.
  apply (X21_mineru_output_file_order w MinerUConverter.__init__ "sample.pdf"
           {| returncode := 0; stdout := ""; stderr := "" |}); reflexivity.
Defined.

(** The nested file wins over the flat one; without any file the call fails. *)
Example mineru_reads_the_nested_file :
  snd (MinerUConverter.convert_to_md MinerUConverter.__init__ "sample.pdf"
         (mineru_world true mineru_ok
            [ ("/tmp/tmpk3v9/mineru_out/sample.md", Ok "flat");
              ("/tmp/tmpk3v9/mineru_out/sample/sample.md", Ok "# nested") ]
            ["/tmp/tmpk3v9/mineru_out/sample.md"]))
  = Ok "# nested".
Proof. vm_compute. reflexivity. Qed.

Example mineru_without_output :
  snd (MinerUConverter.convert_to_md MinerUConverter.__init__ "sample.pdf"
         (mineru_world true mineru_ok [] []))
  = Raise (RuntimeError "MinerU conversion failed: MinerU: No markdown output generated").
Proof. vm_compute. reflexivity. Qed.

(** ** The table of enabled libraries *)

Lemma dict_keys_set {V : Type} (k : string) (v : V) (d : list (string * V)) :
  dict_keys (dict_set k v d)
    = if bool_decide (k ∈ dict_keys d) then dict_keys d else dict_keys d ++ [k].
Proof.
  induction d as [|[k' v'] d IH]; cbn [dict_set].
  - reflexivity.
  - change (dict_keys ((k', v') :: d)) with (k' :: dict_keys d).
    destruct (String.eqb_spec k' k) as [->|Hne];
      change (dict_keys ((?a, ?b) :: ?r)) with (a :: dict_keys r).
    + rewrite bool_decide_eq_true_2 by left. reflexivity.
    + rewrite IH. destruct (bool_decide (k ∈ dict_keys d)) eqn:Hin.
      * apply bool_decide_eq_true in Hin.
        rewrite bool_decide_eq_true_2 by (right; exact Hin). reflexivity.
      * apply bool_decide_eq_false in Hin.
        rewrite bool_decide_eq_false_2; [reflexivity|].
        intros Hc. apply elem_of_cons in Hc as [Hc|Hc]; [congruence|contradiction].
Qed.

Lemma dict_set_NoDup {V : Type} (k : string) (v : V) (d : list (string * V)) :
  NoDup (dict_keys d) -> NoDup (dict_keys (dict_set k v d)).
Proof.
  intros Hnd. rewrite dict_keys_set.
  destruct (bool_decide (k ∈ dict_keys d)) eqn:Hin; [exact Hnd|].
  apply bool_decide_eq_false in Hin.
  apply NoDup_app. split; [exact Hnd|]. split.
  - intros x Hx Hk. apply list_elem_of_singleton in Hk. subst x. contradiction.
  - apply NoDup_singleton.
Qed.

(** In a table with one row per name, the enabled libraries are the names
    whose row holds 1. *)
Lemma enabled_rows_spec (rows : list (string * Z)) (name : string) :
  NoDup (dict_keys rows) ->
  In name (map fst (List.filter (fun row => (snd row =? 1)%Z) rows))
  <-> dict_get name rows = Some 1%Z.
Proof.
  induction rows as [|[k v] rows IH]; simpl; intros Hnd.
  - split; [contradiction | discriminate].
  - apply NoDup_cons in Hnd as [Hk Hnd]. specialize (IH Hnd).
    destruct (String.eqb_spec k name) as [->|Hne].
    + destruct (Z.eqb_spec v 1) as [->|Hv]; simpl.
      * split; [reflexivity | left; reflexivity].
      * split.
        -- intros Hin. exfalso. apply Hk. apply list_elem_of_In.
           apply in_map_iff in Hin as ([k' v'] & Hfst & Hin). simpl in Hfst. subst k'.
           apply filter_In in Hin as [Hin _].
           apply in_map_iff. exists (name, v'). split; [reflexivity | exact Hin].
        -- intros H. injection H as H. contradiction.
    + destruct (Z.eqb v 1); simpl; rewrite <- IH; [|reflexivity].
      split; [intros [H|H]; [contradiction | exact H] | intros H; right; exact H].
Qed.

(** X22.  Read after write on the table of libraries, when it has one row
    per name: after [set_library_status(name, flag)],
    [get_enabled_libraries] lists [name] exactly when the flag is true, and
    lists any other library exactly when it did before. *)
Theorem X22_library_status_read_after_write
    (rows : list (string * Z)) (library_name other : string) (is_enabled : bool) :
  NoDup (dict_keys rows) ->
  let db := DatabaseService.Opened rows in
  let db' := fst (DatabaseService.set_library_status db library_name is_enabled) in
  exists before after : list string,
    DatabaseService.get_enabled_libraries db = Ok before
    /\ DatabaseService.get_enabled_libraries db' = Ok after
    /\ snd (DatabaseService.set_library_status db library_name is_enabled) = Ok tt
    /\ (In library_name after <-> is_enabled = true)
    /\ (other <> library_name -> (In other after <-> In other before)).
Proof.
  intros Hnd db db'. subst db db'. simpl.
  eexists. eexists. split; [reflexivity|]. split; [reflexivity|].
  split; [reflexivity|].
  pose proof (dict_set_NoDup library_name (if is_enabled then 1%Z else 0%Z) rows Hnd)
    as Hnd'.
  split.
  - rewrite (enabled_rows_spec _ library_name Hnd'), dict_get_set_eq.
    destruct is_enabled; split; intros H; try reflexivity; discriminate.
  - intros Hne.
    rewrite (enabled_rows_spec _ other Hnd'), (enabled_rows_spec _ other Hnd).
    rewrite dict_get_set_ne by congruence. reflexivity.
Qed.

(** X22 on the table of three libraries: the disabled one is enabled. *)
Lemma X22_library_status_read_after_write_witness :
  let db := example_table in
  let db' := fst (DatabaseService.set_library_status db "docling" true) in
  exists before after : list string,
    DatabaseService.get_enabled_libraries db = Ok before
    /\ DatabaseService.get_enabled_libraries db' = Ok after
    /\ snd (DatabaseService.set_library_status db "docling" true) = Ok tt
    /\ (In "docling" after <-> true = true)
    /\ ("marker" <> "docling" -> (In "marker" after <-> In "marker" before)).
Proof.
  apply (X22_library_status_read_after_write
           [("pymupdf4llm", 1%Z); ("docling", 0%Z); ("marker", 1%Z)]
           "docling" "marker" true).
  apply (bool_decide_unpack _). vm_compute. exact I.
Defined.

(** ** The table of enabled libraries and the registry *)

Lemma built_registry_get (w : World) (libs : list string) (c : PDFConverter.t) :
  db_get_enabled_libraries w = Ok libs ->
  NoDup (map PDFConverter.name (OCRFactory.all_converters w)) ->
  In c (OCRFactory.all_converters w) ->
  enabled_and_available libs c = true ->
  dict_get (PDFConverter.name c) (OCRFactory._converters (built_factory w)) = Some c.
Proof.
  intros Hdb Hnd Hin Hen.
  rewrite (built_factory_registry w libs Hdb). cbn [OCRFactory._converters].
  rewrite (fold_register_contents libs (OCRFactory.all_converters w) [] Hnd)
    by (intros x _ []).
  cbn [app]. apply dict_get_named.
  - apply NoDup_map_filter. exact Hnd.
  - apply filter_In. split; assumption.
Qed.

Lemma built_registry_get_disabled (w : World) (libs : list string) (name : string) :
  db_get_enabled_libraries w = Ok libs ->
  ~ In name libs ->
  dict_get name (OCRFactory._converters (built_factory w)) = None.
Proof.
  intros Hdb Hnot.
  destruct (dict_get name (OCRFactory._converters (built_factory w))) as [c|] eqn:Hget;
    [|reflexivity].
  rewrite (built_factory_registry w libs Hdb) in Hget.
  cbn [OCRFactory._converters] in Hget.
  destruct (fold_register_sound libs _ [] name c Hget) as [Hnil|(_ & Hk & _)];
    [discriminate|].
  exfalso. apply Hnot. apply list_elem_of_In. exact Hk.
Qed.

(** X24.  The database and the registry together, for a converter class
    with a name of its own that is available: once the library is enabled
    with [set_library_status] and the factory is refreshed, its name
    resolves to the converter; once it is disabled and the factory is
    refreshed, its name resolves to nothing. *)
Theorem X24_library_status_decides_resolution
    (w : World) (rows : list (string * Z)) (self : OCRFactory.t) (c : PDFConverter.t) :
  NoDup (dict_keys rows) ->
  NoDup (map PDFConverter.name (OCRFactory.all_converters w)) ->
  In c (OCRFactory.all_converters w) ->
  PDFConverter.available c = true ->
  let name := PDFConverter.name c in
  let db := DatabaseService.Opened rows in
  let w_on :=
    world_with_db w (fst (DatabaseService.set_library_status db name true)) in
  let w_off :=
    world_with_db w (fst (DatabaseService.set_library_status db name false)) in
  snd (OCRFactory.get_converter
         (object_after self (OCRFactory.refresh_converters self w_on)) name w_on)
    = Ok (Some c)
  /\ snd (OCRFactory.get_converter
            (object_after self (OCRFactory.refresh_converters self w_off)) name w_off)
    = Ok None.
Proof.
  intros Hrows Hnd Hin Hav name db w_on w_off.
  pose proof (dict_set_NoDup name 1%Z rows Hrows) as Hrows_on.
  pose proof (dict_set_NoDup name 0%Z rows Hrows) as Hrows_off.
  split.
  - set (libs := map fst (List.filter (fun row => (snd row =? 1)%Z)
                            (dict_set name 1%Z rows))).
    assert (Hdb : db_get_enabled_libraries w_on = Ok libs) by reflexivity.
    destruct (refresh_converters_registry w_on libs self Hdb) as [_ Hafter].
    rewrite Hafter, get_converter_run. cbn [snd]. f_equal.
    apply (built_registry_get w_on libs c Hdb); [exact Hnd | exact Hin |].
    unfold enabled_and_available. rewrite Hav, andb_true_r.
    apply bool_decide_eq_true. apply list_elem_of_In.
    apply (enabled_rows_spec _ name Hrows_on). apply dict_get_set_eq.
  - set (libs := map fst (List.filter (fun row => (snd row =? 1)%Z)
                            (dict_set name 0%Z rows))).
    assert (Hdb : db_get_enabled_libraries w_off = Ok libs) by reflexivity.
    destruct (refresh_converters_registry w_off libs self Hdb) as [_ Hafter].
    rewrite Hafter, get_converter_run. cbn [snd]. f_equal.
    apply (built_registry_get_disabled w_off libs name Hdb).
    intros Hlib. apply (enabled_rows_spec _ name Hrows_off) in Hlib.
    rewrite dict_get_set_eq in Hlib. discriminate.
Qed.

(** X24 on the table of three libraries and the backend it disables. *)
Lemma X24_library_status_decides_resolution_witness :
  let c := example_converter "docling" true ["pdfs/c.pdf"] in
  let name := PDFConverter.name c in
  let db := DatabaseService.Opened
              [("pymupdf4llm", 1%Z); ("docling", 0%Z); ("marker", 1%Z)] in
  let w_on :=
    world_with_db world_configured
      (fst (DatabaseService.set_library_status db name true)) in
  let w_off :=
    world_with_db world_configured
      (fst (DatabaseService.set_library_status db name false)) in
  snd (OCRFactory.get_converter
         (object_after mineru_factory (OCRFactory.refresh_converters mineru_factory w_on))
         name w_on)
    = Ok (Some c)
  /\ snd (OCRFactory.get_converter
            (object_after mineru_factory
               (OCRFactory.refresh_converters mineru_factory w_off)) name w_off)
    = Ok None.
Proof.
  intros c.
  apply (X24_library_status_decides_resolution world_configured
           [("pymupdf4llm", 1%Z); ("docling", 0%Z); ("marker", 1%Z)]
           mineru_factory c).
  - apply (bool_decide_unpack _). vm_compute. exact I.
  - apply (bool_decide_unpack _). vm_compute. exact I.
  - right. right. right. left. reflexivity.
  - reflexivity.
Defined.
